(** * update_data_script.py: reconciliation, planning and enrichment of the
      bond catalog

    A shallow embedding of [merge_data], [step3_get_issue_price],
    [step3_enrich_with_issue_prices] and of the planning and enrichment part
    of [main], followed by the properties of the specification that concern
    them.

    Conventions of the embedding.
    - A Python [str] is a [string]: a sequence of code points below 256.
    - A JSON scalar is a [value]; a record (a Python [dict] with string
      keys) is an insertion-ordered association list, because the script
      looks for the ISIN column by scanning the keys of a record in order.
    - An exception is a value of [exn]; code that may raise returns an
      [outcome].
    - The remote site is an oracle: the reply to the n-th detail request of
      the run, and the table that the directory page yields.  The state
      threaded through the effectful functions is a [world].
    - [float()] is a builtin of Python, not code of the script: it is a
      parameter [py_float] of the functions that reach it. *)

From Stdlib Require Import ZArith QArith Qcanon String Ascii List Lia.
From stdpp Require Import base decidable countable option list gmap strings.

Local Open Scope string_scope.
Local Open Scope list_scope.

(** ** Python strings *)

Module PyStr.

(** [str.isspace] on the code points below 256: TAB..CR, FS..US, SPACE,
    NEL and NBSP. *)
Definition is_space (c : ascii) : bool :=
  let n := nat_of_ascii c in
  ((9 <=? n)%nat && (n <=? 13)%nat) || ((28 <=? n)%nat && (n <=? 32)%nat)
  || (n =? 133)%nat || (n =? 160)%nat.

Fixpoint lstrip (s : string) : string :=
  match s with
  | String c t => if is_space c then lstrip t else s
  | EmptyString => EmptyString
  end.

Fixpoint rstrip (s : string) : string :=
  match s with
  | String c t =>
      match rstrip t with
      | EmptyString => if is_space c then EmptyString else String c EmptyString
      | t' => String c t'
      end
  | EmptyString => EmptyString
  end.

(** [s.strip()] *)
Definition strip (s : string) : string := rstrip (lstrip s).

(** [s.replace(a, b)] for one-character [a] and [b]. *)
Fixpoint replace (a b : ascii) (s : string) : string :=
  match s with
  | String c t => String (if Ascii.eqb c a then b else c) (replace a b t)
  | EmptyString => EmptyString
  end.

Definition upper_char (c : ascii) : ascii :=
  let n := nat_of_ascii c in
  if (97 <=? n)%nat && (n <=? 122)%nat then ascii_of_nat (n - 32) else c.

(** [s.upper()] on the letters a..z.  The other code points below 256
    either stay, or go to a letter that is none of I, S, N, or (sharp s)
    go to the pair SS, which cannot lie inside an occurrence of ISIN: the
    test [has_isin_marker] below is the one of Python. *)
Fixpoint upper (s : string) : string :=
  match s with
  | String c t => String (upper_char c) (upper t)
  | EmptyString => EmptyString
  end.

(** [needle in hay] *)
Fixpoint contains (needle hay : string) : bool :=
  String.prefix needle hay
  || match hay with
     | String _ t => contains needle t
     | EmptyString => false
     end.

(** ['ISIN' in key.upper()] *)
Definition has_isin_marker (key : string) : bool :=
  contains "ISIN" (upper key).

End PyStr.

(** ** JSON scalars *)

(** A Python number by the value it denotes: a rational, an infinity or
    not-a-number.  Both zeros of a float are [Finite 0]. *)
Inductive num : Type :=
  | Finite (q : Qc)
  | Infinity (negative : bool)
  | NaN.

Inductive value : Type :=
  | VNone
  | VBool (b : bool)
  | VNum (x : num)
  | VStr (s : string).

#[global] Instance num_eq_dec : EqDecision num.
Proof. solve_decision. Defined.

#[global] Instance value_eq_dec : EqDecision value.
Proof. solve_decision. Defined.

#[global] Instance num_countable : Countable num :=
  inj_countable'
    (fun x => match x with
              | Finite q => inl q
              | Infinity b => inr (Some b)
              | NaN => inr None
              end)
    (fun y => match y with
              | inl q => Finite q
              | inr (Some b) => Infinity b
              | inr None => NaN
              end)
    (fun x => match x with Finite _ | Infinity _ | NaN => eq_refl end).

#[global] Instance value_countable : Countable value :=
  inj_countable'
    (fun v => match v with
              | VNone => inl (inl tt)
              | VBool b => inl (inr b)
              | VNum x => inr (inl x)
              | VStr s => inr (inr s)
              end)
    (fun y => match y with
              | inl (inl _) => VNone
              | inl (inr b) => VBool b
              | inr (inl x) => VNum x
              | inr (inr s) => VStr s
              end)
    (fun v => match v with VNone | VBool _ | VNum _ | VStr _ => eq_refl end).

Definition num_of_Z (z : Z) : num := Finite (Q2Qc (inject_Z z)).

(** The number [n / d]. *)
Definition num_frac (n : Z) (d : positive) : num := Finite (Q2Qc (n # d)).

(** [x is None] *)
Definition is_none (v : value) : bool :=
  match v with VNone => true | _ => false end.

(** Truth value of a number: [x != 0]. *)
Definition num_truthy (x : num) : bool :=
  match x with
  | Finite q => if decide (q = Q2Qc 0) then false else true
  | Infinity _ => true
  | NaN => true
  end.

(** Truth value of a scalar, as [if v:] tests it. *)
Definition truthy (v : value) : bool :=
  match v with
  | VNone => false
  | VBool b => b
  | VNum x => num_truthy x
  | VStr s => negb (String.eqb s EmptyString)
  end.

(** Dictionary keys are compared with [==] (and hashed accordingly):
    [True] and [1], [False] and [0] are one key. *)
Definition py_key (v : value) : value :=
  match v with
  | VBool b => VNum (num_of_Z (if b then 1 else 0))
  | _ => v
  end.

(** ** Exceptions *)

Inductive exn : Type :=
  | KeyError (key : string)
  | ValueError
  | HTTPError (status_code : option Z)
  | OtherException.

Inductive outcome (A : Type) : Type :=
  | Return (a : A)
  | Raise (e : exn).

Arguments Return {A} a.
Arguments Raise {A} e.

Definition bind {A B : Type} (m : outcome A) (k : A -> outcome B) : outcome B :=
  match m with
  | Return a => k a
  | Raise e => Raise e
  end.

Notation "'let!' x ':=' m 'in' k" := (bind m (fun x => k))
  (at level 10, x name, m at level 100, k at level 200).

(** [[f(x) for x in xs]], stopping at the first exception. *)
Fixpoint for_each {A B : Type} (f : A -> outcome B) (xs : list A) : outcome (list B) :=
  match xs with
  | [] => Return []
  | x :: xs' =>
      let! y := f x in
      let! ys := for_each f xs' in
      Return (y :: ys)
  end.

(** ** Records: insertion-ordered dictionaries with string keys *)

Definition record : Type := list (string * value).

Module PyDict.

(** [d.get(k)] *)
Fixpoint get (d : record) (k : string) : option value :=
  match d with
  | [] => None
  | (k', v) :: d' => if String.eqb k' k then Some v else get d' k
  end.

(** [k in d] *)
Definition has (d : record) (k : string) : bool :=
  match get d k with Some _ => true | None => false end.

(** [d[k]] *)
Definition getitem (d : record) (k : string) : outcome value :=
  match get d k with
  | Some v => Return v
  | None => Raise (KeyError k)
  end.

(** [d[k] = v]: a key already there keeps its place, a new one goes last. *)
Fixpoint set (d : record) (k : string) (v : value) : record :=
  match d with
  | [] => [(k, v)]
  | (k', v') :: d' =>
      if String.eqb k' k then (k', v) :: d' else (k', v') :: set d' k v
  end.

(** [d.update(e)] *)
Definition update (d e : record) : record :=
  fold_left (fun acc kv => set acc (fst kv) (snd kv)) e d.

Definition keys (d : record) : list string := map fst d.

End PyDict.

(** ** merge_data *)

(** [{record[isin_column]: record for record in data}], added to [acc]:
    of two records with one key the later stays. *)
Fixpoint index_by (isin_column : string) (data : list record)
    (acc : gmap value record) : outcome (gmap value record) :=
  match data with
  | [] => Return acc
  | r :: data' =>
      let! k := PyDict.getitem r isin_column in
      index_by isin_column data' (<[py_key k := r]> acc)
  end.

Definition static_fields : list string := ["bondid"; "issueprice"].

(** The loop over [static_fields] for one record of [new_data] whose key is
    in [existing_dict], [old] being the record found there. *)
Definition keep_static (old new_record : record) : record :=
  fold_left
    (fun nr field =>
       match PyDict.get old field with
       | Some v => if is_none v then nr else PyDict.set nr field v
       | None => nr
       end)
    static_fields new_record.

Definition merge_record (isin_column : string) (existing_dict : gmap value record)
    (new_record : record) : outcome record :=
  let! isin := PyDict.getitem new_record isin_column in
  match existing_dict !! py_key isin with
  | Some old => Return (keep_static old new_record)
  | None => Return new_record
  end.

(** [existing_data] is what [load_existing_json] gave: [None] when the file
    is absent or corrupt.  [not existing_data] holds for [None] and for the
    empty list. *)
Definition merge_data (existing_data : option (list record))
    (new_data : list record) (isin_column : string) : outcome (list record) :=
  match existing_data with
  | None | Some [] => Return new_data
  | Some existing =>
      let! existing_dict := index_by isin_column existing ∅ in
      for_each (merge_record isin_column existing_dict) new_data
  end.

(** ** The remote site and the state of a run *)

(** What one [requests.get] of a detail document, followed by
    [raise_for_status] and the search of the [issueprice] tag, comes to. *)
Inductive response : Type :=
  | RespOk (issue_price_tag : option string)
      (** no error status; the text of the tag, if the document has one *)
  | RespHTTPError (status_code : option Z)
      (** [requests.HTTPError], with [e.response.status_code] if any *)
  | RespFailure.
      (** any other exception raised by the request or by the parser *)

Record site : Type := {
  detail : nat -> response;
    (** the reply to the n-th detail request of the run, counted from 0 *)
  directory : gmap string string
    (** the table [step2_fetch_isin_bondid_mapping] returns: empty when the
        page cannot be read *)
}.

Record world : Type := {
  requests : list string;      (** bond ids of the detail requests sent *)
  pauses : list Z;             (** seconds slept at each rate-limit pause *)
  directory_requests : nat     (** calls of [step2_fetch_isin_bondid_mapping] *)
}.

Definition start_of_run : world :=
  {| requests := []; pauses := []; directory_requests := 0 |}.

Definition sent (bond_id : string) (w : world) : world :=
  {| requests := requests w ++ [bond_id];
     pauses := pauses w;
     directory_requests := directory_requests w |}.

(** [for remaining in range(backoff, 0, -1): time.sleep(1)] *)
Definition countdown (backoff : Z) (w : world) : world :=
  {| requests := requests w;
     pauses := pauses w ++ [Z.of_nat (Z.to_nat backoff)];
     directory_requests := directory_requests w |}.

Definition asked_directory (w : world) : world :=
  {| requests := requests w;
     pauses := pauses w;
     directory_requests := S (directory_requests w) |}.

(** A computation of the run: it may raise, it changes the world, and it
    yields [None] when the fuel of a retry loop inside it is exhausted. *)
Definition run (A : Type) : Type := world -> option (outcome A * world).

Definition ret {A : Type} (a : A) : run A := fun w => Some (Return a, w).

Definition lift {A : Type} (m : outcome A) : run A := fun w => Some (m, w).

Definition and_then {A B : Type} (m : run A) (k : A -> run B) : run B :=
  fun w =>
    match m w with
    | Some (Return a, w') => k a w'
    | Some (Raise e, w') => Some (Raise e, w')
    | None => None
    end.

Notation "'do!' x ':=' m 'in' k" := (and_then m (fun x => k))
  (at level 10, x name, m at level 100, k at level 200).

(** ** step3_get_issue_price *)

Definition initial_backoff : Z := 60.
Definition max_backoff : Z := 600.

Section Fetcher.

(** [float(text)]: [None] stands for [ValueError]. *)
Variable py_float : string -> option num.
Variable remote : site.

(** [float(issue_price_tag.text.strip().replace(',', '.'))] *)
Definition price_text (text : string) : string :=
  PyStr.replace "," "." (PyStr.strip text).

Definition parse_price (text : string) : outcome num :=
  match py_float (price_text text) with
  | Some x => Return x
  | None => Raise ValueError
  end.

(** The body of the outer [try] for one reply, the inner [try] and its
    [except ValueError] included. *)
Definition attempt (resp : response) : outcome (option num) :=
  match resp with
  | RespHTTPError status_code => Raise (HTTPError status_code)
  | RespFailure => Raise OtherException
  | RespOk (Some text) =>
      match parse_price text with
      | Return x => Return (Some x)
      | Raise ValueError => Return None
      | Raise e => Raise e
      end
  | RespOk None => Return None
  end.

(** [while True:], one iteration per unit of fuel. *)
Fixpoint fetch_loop (fuel : nat) (bond_id : string) (backoff : Z)
    (w : world) : option (outcome (option num) * world) :=
  match fuel with
  | O => None
  | S fuel' =>
      let resp := detail remote (length (requests w)) in
      let w1 := sent bond_id w in
      match attempt resp with
      | Return r => Some (Return r, w1)
      | Raise (HTTPError status) =>
          if decide (status = Some 429%Z) then
            fetch_loop fuel' bond_id (Z.min (backoff * 2) max_backoff)
              (countdown backoff w1)
          else Some (Return None, w1)
      | Raise _ => Some (Return None, w1)
      end
  end.

Definition step3_get_issue_price (fuel : nat) (bond_id : string) : run (option num) :=
  fetch_loop fuel bond_id initial_backoff.

End Fetcher.

(** ** step3_enrich_with_issue_prices *)

(** The counters of the final report. *)
Record stats : Type := {
  total_records : nat;
  bondid_added : nat;
  price_found : nat;
  price_not_found : nat
}.

Definition no_counts (total : nat) : stats :=
  {| total_records := total;
     bondid_added := 0;
     price_found := 0;
     price_not_found := 0 |}.

(** [bondid_added += 1] and [price_found += 1] *)
Definition count_found (c : stats) : stats :=
  {| total_records := total_records c;
     bondid_added := S (bondid_added c);
     price_found := S (price_found c);
     price_not_found := price_not_found c |}.

(** [bondid_added += 1] and [price_not_found += 1] *)
Definition count_not_found (c : stats) : stats :=
  {| total_records := total_records c;
     bondid_added := S (bondid_added c);
     price_found := price_found c;
     price_not_found := S (price_not_found c) |}.

(** The first key of the record that carries the ISIN marker. *)
Definition find_isin_column (sample : record) : option string :=
  List.find PyStr.has_isin_marker (PyDict.keys sample).

(** ['issueprice' in record and record['issueprice'] is not None] *)
Definition has_issue_price (r : record) : bool :=
  match PyDict.get r "issueprice" with
  | Some v => negb (is_none v)
  | None => false
  end.

(** [isin_bond_map[isin]] when [isin and isin in isin_bond_map]: the keys
    of the table are strings, so that only a non-empty string is found. *)
Definition bond_id_of (isin_bond_map : gmap string string) (isin : value) : option string :=
  if truthy isin then
    match isin with
    | VStr s => isin_bond_map !! s
    | _ => None
    end
  else None.

(** [if issue_price:] on what the fetcher returned. *)
Definition price_truthy (issue_price : option num) : bool :=
  match issue_price with
  | Some x => num_truthy x
  | None => false
  end.

Definition price_value (issue_price : option num) : value :=
  match issue_price with
  | Some x => VNum x
  | None => VNone
  end.

Section Enrichment.

Variable py_float : string -> option num.
Variable remote : site.
Variable fuel : nat.

(** The body of [for i, record in enumerate(json_data):], from the
    counters [c] before the record to the counters after it. *)
Definition enrich_record (isin_column : string)
    (isin_bond_map : gmap string string) (r : record) (c : stats)
    : run (record * stats) :=
  let isin := default VNone (PyDict.get r isin_column) in
  if has_issue_price r then ret (r, count_found c)
  else
    match bond_id_of isin_bond_map isin with
    | Some bond_id =>
        let r1 := PyDict.set r "bondid" (VStr bond_id) in
        do! issue_price := step3_get_issue_price py_float remote fuel bond_id in
        if price_truthy issue_price then
          ret (PyDict.set r1 "issueprice" (price_value issue_price),
               count_found c)
        else
          ret (PyDict.set r1 "issueprice" VNone, count_not_found c)
    | None =>
        ret (PyDict.set (PyDict.set r "bondid" VNone) "issueprice" VNone, c)
    end.

Fixpoint enrich_loop (isin_column : string)
    (isin_bond_map : gmap string string) (json_data : list record)
    (c : stats) : run (list record * stats) :=
  match json_data with
  | [] => ret ([], c)
  | r :: rest =>
      do! rc := enrich_record isin_column isin_bond_map r c in
      do! restc := enrich_loop isin_column isin_bond_map rest (snd rc) in
      ret (fst rc :: fst restc, snd restc)
  end.

(** The records are changed in place and the list is returned; the
    second component is the final report, when one is printed. *)
Definition step3_enrich_with_issue_prices (json_data : list record)
    (isin_bond_map : gmap string string) : run (list record * option stats) :=
  match json_data with
  | [] => ret (json_data, None)
  | sample :: _ =>
      if decide (isin_bond_map = ∅) then ret (json_data, None)
      else
        match find_isin_column sample with
        | None => ret (json_data, None)
        | Some isin_column =>
            do! res := enrich_loop isin_column isin_bond_map json_data
                         (no_counts (length json_data)) in
            ret (fst res, Some (snd res))
        end
  end.

End Enrichment.

(** ** main: planning and enrichment *)

(** ['f' not in record or record['f'] is None] *)
Definition missing_or_none (r : record) (field : string) : bool :=
  match PyDict.get r field with
  | Some v => is_none v
  | None => true
  end.

(** The condition of both filters of [main]. *)
Definition needs_enrichment (r : record) : bool :=
  missing_or_none r "bondid" || missing_or_none r "issueprice".

(** The set [isin_to_process]. *)
Fixpoint isin_to_process (isin_column : string) (json_data : list record)
    : outcome (gset value) :=
  match json_data with
  | [] => Return ∅
  | r :: rest =>
      if needs_enrichment r then
        let! k := PyDict.getitem r isin_column in
        let! s := isin_to_process isin_column rest in
        Return ({[py_key k]} ∪ s)
      else isin_to_process isin_column rest
  end.

(** The list [records_to_process]. *)
Definition records_to_process (json_data : list record) : list record :=
  List.filter needs_enrichment json_data.

(** The records of [records_to_process] are the very objects of
    [json_data], changed in place by the enrichment: [json_data] as it
    stands after the call. *)
Fixpoint written_back (json_data enriched : list record) : list record :=
  match json_data with
  | [] => []
  | r :: rest =>
      if needs_enrichment r then
        match enriched with
        | e :: enriched' => e :: written_back rest enriched'
        | [] => r :: written_back rest []
        end
      else r :: written_back rest enriched
  end.

(** [if isin in enriched_dict: record.update(enriched_dict[isin])] *)
Definition update_from (isin_column : string)
    (enriched_dict : gmap value record) (r : record) : outcome record :=
  let! isin := PyDict.getitem r isin_column in
  match enriched_dict !! py_key isin with
  | Some e => Return (PyDict.update r e)
  | None => Return r
  end.

Section Main.

Variable py_float : string -> option num.
Variable remote : site.
Variable fuel : nat.

(** The body of the function is the reading of the directory page, left
    to the site. *)
Definition step2_fetch_isin_bondid_mapping : run (gmap string string) :=
  fun w => Some (Return (directory remote), asked_directory w).

(** [main] from the computation of [isin_to_process] to [enriched_json],
    the list handed to [json.dump]. *)
Definition plan_and_enrich (isin_column : string) (json_data : list record)
    : run (list record) :=
  do! to_process := lift (isin_to_process isin_column json_data) in
  do! isin_bond_map :=
    (if decide (to_process = ∅) then ret ∅
     else step2_fetch_isin_bondid_mapping) in
  match records_to_process json_data with
  | [] => ret json_data
  | subset =>
      do! enriched := step3_enrich_with_issue_prices py_float remote fuel
                        subset isin_bond_map in
      let enriched_subset := fst enriched in
      do! enriched_dict := lift (index_by isin_column enriched_subset ∅) in
      lift (for_each (update_from isin_column enriched_dict)
              (written_back json_data enriched_subset))
  end.

End Main.

(** ** A parser to run the examples with *)

(** The numerals [digits], [digits.digits], [digits.] and [.digits] with an
    optional sign, read exactly: on them [float()] gives the nearest
    binary64 number, which is the number read whenever that number is a
    binary64 number, as 98.75 is. *)
Module Sample.

Definition digit (c : ascii) : option Z :=
  let n := nat_of_ascii c in
  if (48 <=? n)%nat && (n <=? 57)%nat then Some (Z.of_nat (n - 48)) else None.

Fixpoint digits (acc : Z) (s : string) : option Z :=
  match s with
  | EmptyString => Some acc
  | String c t =>
      match digit c with
      | Some d => digits (10 * acc + d) t
      | None => None
      end
  end.

(** The text before the first point and the text after it. *)
Fixpoint at_point (s : string) : string * option string :=
  match s with
  | EmptyString => (EmptyString, None)
  | String c t =>
      if Ascii.eqb c "." then (EmptyString, Some t)
      else let (i, f) := at_point t in (String c i, f)
  end.

Definition unsigned (s : string) : option Q :=
  let (i, f) := at_point s in
  let f := default EmptyString f in
  if String.eqb (i ++ f) EmptyString then None
  else
    match digits 0 i, digits 0 f with
    | Some n, Some m =>
        let scale := Pos.pow 10 (Pos.of_nat (String.length f)) in
        if String.eqb f EmptyString then Some (n # 1)
        else Some ((n * Z.pos scale + m) # scale)
    | _, _ => None
    end.

Definition decimal_float (s : string) : option num :=
  match s with
  | String "-" t => (fun q => Finite (Q2Qc (- q))) <$> unsigned t
  | String "+" t => (fun q => Finite (Q2Qc q)) <$> unsigned t
  | _ => (fun q => Finite (Q2Qc q)) <$> unsigned s
  end.

End Sample.

(** A site for the examples: the replies listed, then documents without an
    [issueprice] tag; the directory page gives [table]. *)
Definition site_of (replies : list response) (table : gmap string string) : site :=
  {| detail := fun n => default (RespOk None) (replies !! n);
     directory := table |}.

Definition too_many_requests : response := RespHTTPError (Some 429%Z).

(** ** step2_fetch_isin_bondid_mapping: the table built from the page *)

Module Directory.

Definition is_digit (c : ascii) : bool :=
  let n := nat_of_ascii c in (48 <=? n)%nat && (n <=? 57)%nat.

(** The longest run of digits at the head of the text: what [\d+] takes. *)
Fixpoint leading_digits (s : string) : string :=
  match s with
  | String c t => if is_digit c then String c (leading_digits t) else EmptyString
  | EmptyString => EmptyString
  end.

(** The rest of [s] after [p], when [s] starts with [p]. *)
Fixpoint after_prefix (p s : string) : option string :=
  match p, s with
  | EmptyString, _ => Some s
  | String a p', String b s' => if Ascii.eqb a b then after_prefix p' s' else None
  | String _ _, EmptyString => None
  end.

(** A match of [bondID=(\d+)] that starts at the head of the text: its
    group. *)
Definition match_bond_id (s : string) : option string :=
  match after_prefix "bondID=" s with
  | Some rest =>
      match leading_digits rest with
      | EmptyString => None
      | ds => Some ds
      end
  | None => None
  end.

(** [re.search(r'bondID=(\d+)', href)] and [match.group(1)]: the leftmost
    match. *)
Fixpoint search_bond_id (href : string) : option string :=
  match match_bond_id href with
  | Some ds => Some ds
  | None =>
      match href with
      | String _ t => search_bond_id t
      | EmptyString => None
      end
  end.

(** A [td] of the page: its text, and what [cell.find('a')] gives, the
    first anchor of the cell with its [href] attribute if it has one. *)
Record cell : Type := {
  cell_text : string;
  cell_link : option (option string)
}.

(** [if link and 'href' in link.attrs:] and the search in the [href]. *)
Definition cell_bond_id (c : cell) : option string :=
  match cell_link c with
  | Some (Some href) => search_bond_id href
  | _ => None
  end.

(** [for cell in cells:] up to its [break]. *)
Fixpoint first_bond_id (cells : list cell) : option string :=
  match cells with
  | [] => None
  | c :: cells' =>
      match cell_bond_id c with
      | Some bond_id => Some bond_id
      | None => first_bond_id cells'
      end
  end.

(** The body of [for row in rows:], [cells] being [row.find_all('td')]. *)
Definition add_row (isin_bond_map : gmap string string) (cells : list cell)
    : gmap string string :=
  match cells with
  | [] => isin_bond_map
  | first :: _ =>
      match first_bond_id cells with
      | Some bond_id => <[PyStr.strip (cell_text first) := bond_id]> isin_bond_map
      | None => isin_bond_map
      end
  end.

Definition isin_bond_map_of_rows (rows : list (list cell)) : gmap string string :=
  fold_left add_row rows ∅.

(** What the request and the parse of the page come to. *)
Inductive page : Type :=
  | PageError
      (** the request raised, or the status was an error *)
  | PageWithoutTable
      (** no element with the id [YieldTable] *)
  | PageTable (rows : list (list cell)).

(** The value the function returns: the empty table on every failure. *)
Definition mapping_of_page (p : page) : gmap string string :=
  match p with
  | PageTable rows => isin_bond_map_of_rows rows
  | PageError | PageWithoutTable => ∅
  end.

End Directory.

(** ** main: from the result of step 1 to the list that is saved *)

Inductive main_outcome : Type :=
  | Exited (code : Z)
      (** [sys.exit(code)] *)
  | Crashed (e : exn)
      (** an exception nobody handles *)
  | Dumped (enriched_json : list record).
      (** the list handed to [json.dump] *)

(** [if existing_data:] *)
Definition has_records (existing_data : option (list record)) : bool :=
  match existing_data with
  | None | Some [] => false
  | Some (_ :: _) => true
  end.

Section MainFromStep1.

Variable py_float : string -> option num.
Variable remote : site.
Variable fuel : nat.

(** [json_data] is what [step1_csv_to_json] gave, [None] when it failed;
    [existing_data] is what [load_existing_json] gave. *)
Definition main_from_step1 (existing_data json_data : option (list record))
    : world -> option (main_outcome * world) :=
  fun w =>
    match json_data with
    | None | Some [] => Some (Exited 1, w)
    | Some (sample :: rest) =>
        match find_isin_column sample with
        | None => Some (Exited 1, w)
        | Some isin_column =>
            let merged :=
              if has_records existing_data
              then merge_data existing_data (sample :: rest) isin_column
              else Return (sample :: rest) in
            match merged with
            | Raise e => Some (Crashed e, w)
            | Return data =>
                match plan_and_enrich py_float remote fuel isin_column data w with
                | Some (Return enriched_json, w') => Some (Dumped enriched_json, w')
                | Some (Raise e, w') => Some (Crashed e, w')
                | None => None
                end
            end
        end
    end.

End MainFromStep1.

(** The field names of the record are pairwise distinct, as the keys of a
    Python dictionary are. *)
Definition well_formed (r : record) : Prop := NoDup (PyDict.keys r).

(** ** Vocabulary of the properties *)

(** The key under which the index holds a record. *)
Definition key_of (isin_column : string) (r : record) : option value :=
  py_key <$> PyDict.get r isin_column.

(** Every record has the identifier column. *)
Definition keyed (isin_column : string) (data : list record) : Prop :=
  Forall (fun r => is_Some (PyDict.get r isin_column)) data.

(** A catalog: every record is keyed and no two records share a key. *)
Definition catalog (isin_column : string) (data : list record) : Prop :=
  keyed isin_column data /\ NoDup (key_of isin_column <$> data).

(** The reply is the rate-limit signal: [HTTPError] with status 429. *)
Definition is_rate_limit (resp : response) : bool :=
  match resp with
  | RespHTTPError status_code => bool_decide (status_code = Some 429%Z)
  | _ => false
  end.


(** What a call returns on a reply that is not the rate-limit signal. *)
Definition settled (py_float : string -> option num) (resp : response) : option num :=
  match attempt py_float resp with
  | Return r => r
  | Raise _ => None
  end.

(** The n-th term of 60, 120, 240, 480, 600, 600, ... *)
Definition backoff_at (n : nat) : Z := Z.min (60 * 2 ^ Z.of_nat n) 600.

(** The pauses of a call that meets [k] rate-limit signals in a row when it
    starts with the pause [backoff]. *)
Fixpoint backoffs (backoff : Z) (k : nat) : list Z :=
  match k with
  | O => []
  | S k' => backoff :: backoffs (Z.min (backoff * 2) max_backoff) k'
  end.

(** The record is one for which the loop of the enrichment takes its last
    branch: no issue price yet, and no bond id for its identifier. *)
Definition unresolved (isin_column : string) (isin_bond_map : gmap string string)
    (r : record) : bool :=
  negb (has_issue_price r)
  && match bond_id_of isin_bond_map (default VNone (PyDict.get r isin_column)) with
     | Some _ => false
     | None => true
     end.

(** The number of those records in a worklist. *)
Definition unresolved_mapping (json_data : list record)
    (isin_bond_map : gmap string string) : nat :=
  match json_data with
  | [] => 0
  | sample :: _ =>
      match find_isin_column sample with
      | Some isin_column =>
          length (List.filter (unresolved isin_column isin_bond_map) json_data)
      | None => 0
      end
  end.

(** The field is present and not null. *)
Definition valid_field (r : record) (field : string) : Prop :=
  exists v, PyDict.get r field = Some v /\ v ≠ VNone.

(** Every character of the text is a digit. *)
Fixpoint all_digits (s : string) : bool :=
  match s with
  | String c t => Directory.is_digit c && all_digits t
  | EmptyString => true
  end.

(** The text does not begin with a digit. *)
Definition no_digit_ahead (s : string) : Prop :=
  match s with
  | String c _ => Directory.is_digit c = false
  | EmptyString => True
  end.

(** The row gives the table an entry for [isin]: its first cell reads
    [isin] once stripped, and one of its cells links to a bond id. *)
Definition row_entry (cells : list Directory.cell) (isin bond_id : string) : Prop :=
  exists first rest,
    cells = first :: rest /\
    PyStr.strip (Directory.cell_text first) = isin /\
    Directory.first_bond_id cells = Some bond_id.

(** From [w] to [w'] the run asked for no directory page, and its detail
    requests were all for bond ids that the table holds for a non-empty
    ISIN. *)
Definition only_table_requests (isin_bond_map : gmap string string)
    (w w' : world) : Prop :=
  directory_requests w' = directory_requests w /\
  exists asked,
    requests w' = requests w ++ asked /\
    Forall (fun bond_id =>
              exists isin, isin ≠ EmptyString /\
                           isin_bond_map !! isin = Some bond_id) asked.

(** The value the loop of the enrichment leaves in [bondid]. *)
Definition bond_id_value (bond_id : option string) : value :=
  match bond_id with
  | Some b => VStr b
  | None => VNone
  end.

(** A value the loop of the enrichment can leave in [issueprice]: null, or
    a number that is not zero. *)
Definition null_or_nonzero (v : value) : Prop :=
  v = VNone \/ exists x, v = VNum x /\ num_truthy x = true.

(** Some record of the list needs enrichment. *)
Definition any_needs_enrichment (json_data : list record) : bool :=
  existsb needs_enrichment json_data.


Section Contract.

Variable py_float : string -> option num.
Variable remote : site.
Variable fuel : nat.
Variable isin_column : string.
Variable isin_bond_map : gmap string string.



End Contract.

(** From the n-th request on, the site sends no rate-limit signal. *)
Definition calm_from (remote : site) (n : nat) : Prop :=
  forall i, n <= i -> is_rate_limit (detail remote i) = false.

(** * Properties *)

(** ** Dictionaries *)

Lemma get_set_eq (d : record) (k : string) (v : value) :
  PyDict.get (PyDict.set d k v) k = Some v.
Proof.
  induction d as [|[k' v'] d IH]; simpl.
  - by rewrite String.eqb_refl.
  - destruct (String.eqb k' k) eqn:E; simpl; rewrite E; [done | exact IH].
Qed.

Lemma get_set_ne (d : record) (k k' : string) (v : value) :
  k ≠ k' -> PyDict.get (PyDict.set d k v) k' = PyDict.get d k'.
Proof.
  intros Hne. induction d as [|[k0 v0] d IH]; simpl.
  - apply String.eqb_neq in Hne. by rewrite Hne.
  - destruct (String.eqb k0 k) eqn:E; simpl.
    + apply String.eqb_eq in E. subst k0.
      apply String.eqb_neq in Hne. by rewrite Hne.
    + by rewrite IH.
Qed.

Lemma set_same (d : record) (k : string) (v : value) :
  PyDict.get d k = Some v -> PyDict.set d k v = d.
Proof.
  induction d as [|[k' v'] d IH]; simpl; [done |].
  destruct (String.eqb k' k) eqn:E.
  - by intros [= ->].
  - intros H. by rewrite IH.
Qed.

(** ** Comprehensions *)

Lemma for_each_same {A : Type} (f : A -> outcome A) (xs : list A) :
  (forall x, x ∈ xs -> f x = Return x) -> for_each f xs = Return xs.
Proof.
  induction xs as [|x xs IH]; intros H; simpl; [done |].
  rewrite H by constructor. simpl.
  rewrite IH; [done |]. intros y Hy. apply H. by constructor.
Qed.

Lemma for_each_total {A B : Type} (f : A -> outcome B) (xs : list A) :
  (forall x, x ∈ xs -> exists y, f x = Return y) ->
  exists ys, for_each f xs = Return ys.
Proof.
  induction xs as [|x xs IH]; intros H; simpl; [by eexists |].
  destruct (H x) as [y Hy]; [by constructor |].
  destruct IH as [ys Hys]; [intros z Hz; apply H; by constructor |].
  exists (y :: ys). by rewrite Hy, Hys.
Qed.

Lemma for_each_lookup {A B : Type} (f : A -> outcome B) (xs : list A) (ys : list B) :
  for_each f xs = Return ys ->
  length ys = length xs /\
  forall i x, xs !! i = Some x -> exists y, ys !! i = Some y /\ f x = Return y.
Proof.
  revert ys. induction xs as [|x xs IH]; intros ys; simpl.
  - intros [= <-]. split; [done |]. intros i x. by rewrite lookup_nil.
  - destruct (f x) as [y|e] eqn:Hy; simpl; [|done].
    destruct (for_each f xs) as [ys'|e] eqn:Hys; simpl; [|done].
    intros [= <-]. destruct (IH ys' eq_refl) as [Hlen Hat].
    split; [simpl; by rewrite Hlen |].
    intros [|i] x'; simpl.
    + intros [= <-]. by exists y.
    + apply Hat.
Qed.

(** ** The index of a catalog *)

Lemma index_by_catalog (isin_column : string) (data : list record)
    (acc : gmap value record) :
  catalog isin_column data ->
  exists m, index_by isin_column data acc = Return m /\
    (forall r k, r ∈ data -> key_of isin_column r = Some k -> m !! k = Some r) /\
    (forall k, Some k ∉ key_of isin_column <$> data -> m !! k = acc !! k).
Proof.
  revert acc. induction data as [|r data IH]; intros acc [Hk Hnd]; simpl.
  - exists acc. split; [done |]. split; [|done].
    intros r k Hin. by apply elem_of_nil in Hin.
  - apply Forall_cons in Hk as [[v Hv] Hk].
    rewrite fmap_cons in Hnd. apply NoDup_cons in Hnd as [Hfresh Hnd].
    unfold PyDict.getitem. rewrite Hv. simpl.
    destruct (IH (<[py_key v := r]> acc)) as (m & Hm & Hin & Hout); [done |].
    assert (Hr : key_of isin_column r = Some (py_key v))
      by (unfold key_of; by rewrite Hv).
    exists m. split; [done |]. split.
    + intros r' k Hr' Hkey. apply elem_of_cons in Hr' as [-> | Hr'].
      * rewrite Hr in Hkey. injection Hkey as <-.
        rewrite Hout by (by rewrite <- Hr). apply lookup_insert_eq.
      * by apply Hin.
    + intros k Hnot.
      apply not_elem_of_cons in Hnot as [Hne Hnot].
      rewrite Hout by done. apply lookup_insert_ne.
      intros <-. by rewrite Hr in Hne.
Qed.

(** ** merge_data *)

Lemma keep_static_self (r : record) : keep_static r r = r.
Proof.
  unfold keep_static, static_fields. simpl.
  destruct (PyDict.get r "bondid") as [v|] eqn:Hb.
  - destruct (is_none v).
    + destruct (PyDict.get r "issueprice") as [v'|] eqn:Hp; [|done].
      destruct (is_none v'); [done | by apply set_same].
    + rewrite (set_same _ _ _ Hb).
      destruct (PyDict.get r "issueprice") as [v'|] eqn:Hp; [|done].
      destruct (is_none v'); [done | by apply set_same].
  - destruct (PyDict.get r "issueprice") as [v'|] eqn:Hp; [|done].
    destruct (is_none v'); [done | by apply set_same].
Qed.

Lemma keep_static_static (old nr : record) (field : string) (v : value) :
  field ∈ static_fields -> PyDict.get old field = Some v -> v ≠ VNone ->
  PyDict.get (keep_static old nr) field = Some v.
Proof.
  intros Hf Hv Hnn.
  assert (Hn : is_none v = false) by (by destruct v).
  unfold static_fields in Hf.
  apply elem_of_cons in Hf as [-> | Hf].
  - unfold keep_static, static_fields. simpl. rewrite Hv, Hn.
    destruct (PyDict.get old "issueprice") as [v'|]; [|apply get_set_eq].
    destruct (is_none v'); [apply get_set_eq |].
    rewrite get_set_ne by done. apply get_set_eq.
  - apply list_elem_of_singleton in Hf as ->.
    unfold keep_static, static_fields. simpl. rewrite Hv, Hn.
    apply get_set_eq.
Qed.

Lemma keep_static_other (old nr : record) (g : string) :
  g ∉ static_fields -> PyDict.get (keep_static old nr) g = PyDict.get nr g.
Proof.
  intros Hg. unfold static_fields in Hg.
  apply not_elem_of_cons in Hg as [Hb Hg].
  apply not_elem_of_cons in Hg as [Hp _].
  unfold keep_static, static_fields. simpl.
  destruct (PyDict.get old "bondid") as [v|];
    destruct (PyDict.get old "issueprice") as [v'|];
    try destruct (is_none v); try destruct (is_none v');
    rewrite ?get_set_ne by done; done.
Qed.

Lemma merge_record_other (isin_column : string) (m : gmap value record)
    (nr r : record) (g : string) :
  merge_record isin_column m nr = Return r -> g ∉ static_fields ->
  PyDict.get r g = PyDict.get nr g.
Proof.
  unfold merge_record, PyDict.getitem.
  destruct (PyDict.get nr isin_column) as [k|]; simpl; [|done].
  destruct (m !! py_key k) as [old|]; intros [= <-] Hg; [|done].
  by apply keep_static_other.
Qed.

(** C1 (static-field preservation).  Let the previous catalog have no two
    records with one key, and let the incoming record at position [i] have
    the key of the previous record [prev].  If a static field ([bondid] or
    [issueprice]) of [prev] is present and not null, [merge_data] returns a
    list whose record at position [i] carries the value of [prev] in that
    field, whatever the incoming record carried there; and every field
    that is not static is, in every record of the result, as in the
    incoming record at the same position. *)
Theorem merge_data_static_preservation (isin_column : string)
    (existing new_data : list record) (i : nat) (prev nr : record)
    (k : value) (field : string) (v : value) :
  catalog isin_column existing ->
  keyed isin_column new_data ->
  prev ∈ existing ->
  new_data !! i = Some nr ->
  key_of isin_column prev = Some k ->
  key_of isin_column nr = Some k ->
  field ∈ static_fields ->
  PyDict.get prev field = Some v ->
  v ≠ VNone ->
  exists out,
    merge_data (Some existing) new_data isin_column = Return out /\
    length out = length new_data /\
    (exists r, out !! i = Some r /\ PyDict.get r field = Some v) /\
    (forall j nr' r', new_data !! j = Some nr' -> out !! j = Some r' ->
       forall g, g ∉ static_fields -> PyDict.get r' g = PyDict.get nr' g).
Proof.
  intros Hcat Hkeyed Hprev Hnr Hkp Hkn Hfield Hv Hnn.
  destruct (index_by_catalog isin_column existing ∅ Hcat) as (m & Hm & Hin & _).
  assert (Hex : exists e es, existing = e :: es).
  { destruct existing as [|e es]; [by apply elem_of_nil in Hprev | eauto]. }
  destruct Hex as (e & es & He).
  assert (Hmerge : merge_data (Some existing) new_data isin_column
                   = for_each (merge_record isin_column m) new_data).
  { rewrite He. unfold merge_data. rewrite <- He, Hm. done. }
  destruct (for_each_total (merge_record isin_column m) new_data) as [out Hout].
  { intros x Hx. unfold keyed in Hkeyed. rewrite Forall_forall in Hkeyed.
    destruct (Hkeyed x Hx) as [kx Hkx].
    unfold merge_record, PyDict.getitem. rewrite Hkx. simpl.
    destruct (m !! py_key kx); eauto. }
  destruct (for_each_lookup _ _ _ Hout) as [Hlen Hat].
  exists out. split; [by rewrite Hmerge |]. split; [done |]. split.
  - destruct (Hat i nr Hnr) as (r & Hr & Hmr).
    exists r. split; [done |].
    unfold merge_record, PyDict.getitem in Hmr.
    unfold key_of in Hkn.
    destruct (PyDict.get nr isin_column) as [kn|]; [|done].
    simpl in Hkn, Hmr. injection Hkn as Hkn. rewrite Hkn in Hmr.
    rewrite (Hin prev k Hprev Hkp) in Hmr. injection Hmr as <-.
    by apply keep_static_static.
  - intros j nr' r' Hj Hj' g Hg.
    destruct (Hat j nr' Hj) as (r'' & Hr'' & Hmr).
    rewrite Hj' in Hr''. injection Hr'' as <-.
    by apply (merge_record_other isin_column m).
Qed.

(** The scenario of the specification, with an incoming record that
    carries another issue price. *)
Lemma merge_data_static_preservation_witness :
  exists out,
    merge_data
      (Some [[("ISIN", VStr "A"); ("price", VNum (num_of_Z 100));
              ("bondid", VStr "7"); ("issueprice", VNum (num_frac 995 10))]])
      [[("ISIN", VStr "A"); ("price", VNum (num_of_Z 101));
        ("issueprice", VNum (num_of_Z 1))]]
      "ISIN" = Return out /\
    length out = 1 /\
    (exists r, out !! 0 = Some r /\
               PyDict.get r "issueprice" = Some (VNum (num_frac 995 10))) /\
    (forall j nr' r',
       [[("ISIN", VStr "A"); ("price", VNum (num_of_Z 101));
         ("issueprice", VNum (num_of_Z 1))]] !! j = Some nr' ->
       out !! j = Some r' ->
       forall g, g ∉ static_fields -> PyDict.get r' g = PyDict.get nr' g).
Proof.
  apply (merge_data_static_preservation "ISIN"
           [[("ISIN", VStr "A"); ("price", VNum (num_of_Z 100));
             ("bondid", VStr "7"); ("issueprice", VNum (num_frac 995 10))]]
           [[("ISIN", VStr "A"); ("price", VNum (num_of_Z 101));
             ("issueprice", VNum (num_of_Z 1))]]
           0
           [("ISIN", VStr "A"); ("price", VNum (num_of_Z 100));
            ("bondid", VStr "7"); ("issueprice", VNum (num_frac 995 10))]
           [("ISIN", VStr "A"); ("price", VNum (num_of_Z 101));
            ("issueprice", VNum (num_of_Z 1))]
           (VStr "A") "issueprice" (VNum (num_frac 995 10))).
  - split.
    + repeat constructor. by eexists.
    + apply NoDup_singleton.
  - repeat constructor. by eexists.
  - by constructor.
  - reflexivity.
  - reflexivity.
  - reflexivity.
  - unfold static_fields. apply elem_of_cons. right. by constructor.
  - reflexivity.
  - discriminate.
Defined.

(** C6 (merge idempotence).  For a catalog X (every record keyed, no two
    records with one key), [merge_data] of X with X returns X. *)
Theorem merge_data_idempotent (isin_column : string) (X : list record) :
  catalog isin_column X ->
  merge_data (Some X) X isin_column = Return X.
Proof.
  intros Hcat. destruct X as [|x X']; [done |].
  destruct (index_by_catalog isin_column (x :: X') ∅ Hcat) as (m & Hm & Hin & _).
  unfold merge_data. rewrite Hm.
  change (for_each (merge_record isin_column m) (x :: X') = Return (x :: X')).
  apply for_each_same. intros r Hr.
  destruct Hcat as [Hkeyed _]. unfold keyed in Hkeyed.
  rewrite Forall_forall in Hkeyed. destruct (Hkeyed r Hr) as [k Hk].
  unfold merge_record, PyDict.getitem. rewrite Hk. simpl.
  rewrite (Hin r (py_key k) Hr) by (unfold key_of; by rewrite Hk).
  by rewrite keep_static_self.
Qed.

Lemma merge_data_idempotent_witness :
  merge_data
    (Some [[("ISIN", VStr "A"); ("price", VNum (num_of_Z 100));
            ("bondid", VStr "7"); ("issueprice", VNum (num_frac 995 10))];
           [("ISIN", VStr "B"); ("price", VNum (num_of_Z 50));
            ("bondid", VNone); ("issueprice", VNone)]])
    [[("ISIN", VStr "A"); ("price", VNum (num_of_Z 100));
      ("bondid", VStr "7"); ("issueprice", VNum (num_frac 995 10))];
     [("ISIN", VStr "B"); ("price", VNum (num_of_Z 50));
      ("bondid", VNone); ("issueprice", VNone)]]
    "ISIN"
  = Return
      [[("ISIN", VStr "A"); ("price", VNum (num_of_Z 100));
        ("bondid", VStr "7"); ("issueprice", VNum (num_frac 995 10))];
       [("ISIN", VStr "B"); ("price", VNum (num_of_Z 50));
        ("bondid", VNone); ("issueprice", VNone)]].
Proof.
  apply (merge_data_idempotent "ISIN").
  split.
  - repeat constructor; by eexists.
  - apply NoDup_cons. split.
    + intros H. apply list_elem_of_singleton in H. discriminate H.
    + apply NoDup_singleton.
Defined.

(** ** step3_get_issue_price *)

Section FetcherFacts.

Variable py_float : string -> option num.
Variable remote : site.

Lemma attempt_rate_limit (resp : response) :
  is_rate_limit resp = true -> attempt py_float resp = Raise (HTTPError (Some 429%Z)).
Proof.
  destruct resp as [[text|]|status|]; simpl; try done.
  intros H. apply bool_decide_eq_true in H. by subst.
Qed.

(** The handlers leave no exception of the [try] body unhandled. *)
Lemma attempt_handled (resp : response) :
  (exists r, attempt py_float resp = Return r) \/
  (exists status, attempt py_float resp = Raise (HTTPError status)) \/
  attempt py_float resp = Raise OtherException.
Proof.
  destruct resp as [[text|]|status|]; simpl; eauto.
  unfold parse_price. destruct (py_float (price_text text)); eauto.
Qed.

Lemma fetch_loop_retry (fuel : nat) (bond_id : string) (backoff : Z) (w : world) :
  is_rate_limit (detail remote (length (requests w))) = true ->
  fetch_loop py_float remote (S fuel) bond_id backoff w =
  fetch_loop py_float remote fuel bond_id (Z.min (backoff * 2) max_backoff)
    (countdown backoff (sent bond_id w)).
Proof.
  intros H. simpl. rewrite (attempt_rate_limit _ H).
  by rewrite decide_True.
Qed.

Lemma fetch_loop_settle (fuel : nat) (bond_id : string) (backoff : Z) (w : world) :
  is_rate_limit (detail remote (length (requests w))) = false ->
  fetch_loop py_float remote (S fuel) bond_id backoff w =
  Some (Return (settled py_float (detail remote (length (requests w)))),
        sent bond_id w).
Proof.
  intros H. simpl. unfold settled.
  destruct (detail remote (length (requests w))) as [[text|]|status|]; simpl; try done.
  - unfold parse_price. by destruct (py_float (price_text text)).
  - simpl in H. apply bool_decide_eq_false in H. by rewrite decide_False.
Qed.

Lemma length_requests_retry (bond_id : string) (backoff : Z) (w : world) :
  length (requests (countdown backoff (sent bond_id w))) = S (length (requests w)).
Proof. simpl. rewrite length_app. simpl. lia. Qed.

(** A call that meets [k] rate-limit signals and then another reply. *)
Lemma fetch_loop_throttled (k : nat) :
  forall (fuel : nat) (bond_id : string) (backoff : Z) (w : world),
    (forall i, i < k ->
       is_rate_limit (detail remote (length (requests w) + i)) = true) ->
    is_rate_limit (detail remote (length (requests w) + k)) = false ->
    k < fuel ->
    exists w',
      fetch_loop py_float remote fuel bond_id backoff w =
        Some (Return (settled py_float (detail remote (length (requests w) + k))), w') /\
      pauses w' = pauses w ++ ((fun b => Z.of_nat (Z.to_nat b)) <$> backoffs backoff k) /\
      requests w' = requests w ++ replicate (S k) bond_id /\
      directory_requests w' = directory_requests w.
Proof.
  induction k as [|k IH]; intros fuel bond_id backoff w Hthr Hcalm Hfuel.
  - destruct fuel as [|fuel]; [lia |].
    rewrite Nat.add_0_r in Hcalm. rewrite Nat.add_0_r.
    exists (sent bond_id w). split; [by apply fetch_loop_settle |].
    simpl. by rewrite app_nil_r.
  - destruct fuel as [|fuel]; [lia |].
    rewrite fetch_loop_retry
      by (specialize (Hthr 0 ltac:(lia)); by rewrite Nat.add_0_r in Hthr).
    destruct (IH fuel bond_id (Z.min (backoff * 2) max_backoff)
                (countdown backoff (sent bond_id w)))
      as (w' & Hrun & Hp & Hr & Hd).
    + intros i Hi. rewrite length_requests_retry.
      replace (S (length (requests w)) + i) with (length (requests w) + S i) by lia.
      apply Hthr. lia.
    + rewrite length_requests_retry.
      by replace (S (length (requests w)) + k) with (length (requests w) + S k) by lia.
    + lia.
    + rewrite length_requests_retry in Hrun.
      replace (S (length (requests w)) + k) with (length (requests w) + S k) in Hrun by lia.
      exists w'. split; [done |]. split; [|split].
      * rewrite Hp. simpl. by rewrite <- app_assoc.
      * rewrite Hr. simpl. by rewrite <- app_assoc.
      * by rewrite Hd.
Qed.

Lemma backoffs_from_backoff_at (n k : nat) :
  backoffs (backoff_at n) k = backoff_at <$> seq n k.
Proof.
  revert n. induction k as [|k IH]; intros n; simpl; [done |].
  f_equal. rewrite <- IH. f_equal.
  unfold backoff_at, max_backoff.
  rewrite Nat2Z.inj_succ, Z.pow_succ_r by lia.
  assert (0 < 2 ^ Z.of_nat n)%Z by (apply Z.pow_pos_nonneg; lia).
  lia.
Qed.

Lemma backoff_at_pos (n : nat) : (0 < backoff_at n)%Z.
Proof.
  unfold backoff_at.
  assert (0 < 2 ^ Z.of_nat n)%Z by (apply Z.pow_pos_nonneg; lia). lia.
Qed.

Lemma fetch_loop_fuel (d : nat) :
  forall (N fuel : nat) (bond_id : string) (backoff : Z) (w : world),
    calm_from remote N ->
    N <= length (requests w) + d ->
    d < fuel ->
    exists r w', fetch_loop py_float remote fuel bond_id backoff w = Some (Return r, w').
Proof.
  induction d as [|d IH]; intros N fuel bond_id backoff w Hcalm HN Hfuel;
    (destruct fuel as [|fuel]; [lia |]);
    destruct (is_rate_limit (detail remote (length (requests w)))) eqn:E.
  - rewrite Hcalm in E by lia. done.
  - rewrite fetch_loop_settle by done. eauto.
  - rewrite fetch_loop_retry by done.
    apply (IH N); [done | rewrite length_requests_retry; lia | lia].
  - rewrite fetch_loop_settle by done. eauto.
Qed.

End FetcherFacts.

(** C2, as stated, fails: the backoff does not outlive a call.  A call
    ends only on a reply that is not the rate-limit signal, so signals that
    span two calls have such a reply between them; two calls in a row that
    meet one signal each pause 60 and 60 seconds, not 60 and 120. *)
Lemma backoff_restarts_at_each_call :
  (do! first := step3_get_issue_price Sample.decimal_float
                  (site_of [too_many_requests; RespOk None;
                            too_many_requests; RespOk None] ∅) 3 "7" in
   step3_get_issue_price Sample.decimal_float
     (site_of [too_many_requests; RespOk None;
               too_many_requests; RespOk None] ∅) 3 "9") start_of_run
  = Some (Return None,
          {| requests := ["7"; "7"; "9"; "9"];
             pauses := [60; 60]%Z;
             directory_requests := 0 |})
  /\ [60; 60]%Z ≠ [60; 120]%Z.
Proof. split; [reflexivity | discriminate]. Qed.

(** C2 (backoff policy), amended.  Within one call of the fetcher, from
    whatever state of the run it starts: if the next [k] replies are
    rate-limit signals and the reply after them is not, the call returns and
    has paused, in this order, the first [k] terms of the sequence
    60, 120, 240, 480, 600, 600, ... whose term is the minimum of 60 * 2^n
    and 600; the sequence is non-decreasing and never above 600.  Every
    call starts again at 60. *)
Theorem backoff_within_a_call (py_float : string -> option num) (remote : site)
    (fuel : nat) (bond_id : string) (w : world) (k : nat) :
  (forall i, i < k ->
     is_rate_limit (detail remote (length (requests w) + i)) = true) ->
  is_rate_limit (detail remote (length (requests w) + k)) = false ->
  k < fuel ->
  (exists r w',
     step3_get_issue_price py_float remote fuel bond_id w = Some (Return r, w') /\
     pauses w' = pauses w ++ (backoff_at <$> seq 0 k)) /\
  (backoff_at <$> seq 0 6) = [60; 120; 240; 480; 600; 600]%Z /\
  (forall n, (backoff_at n <= backoff_at (S n) <= 600)%Z).
Proof.
  intros Hthr Hcalm Hfuel. split; [|split].
  - destruct (fetch_loop_throttled py_float remote k fuel bond_id
                initial_backoff w Hthr Hcalm Hfuel) as (w' & Hrun & Hp & _).
    eexists _, w'. split; [exact Hrun |].
    rewrite Hp. f_equal.
    change initial_backoff with (backoff_at 0).
    rewrite backoffs_from_backoff_at.
    rewrite <- list_fmap_compose. apply list_fmap_ext.
    intros _ n _. simpl. pose proof (backoff_at_pos n). lia.
  - reflexivity.
  - intros n. unfold backoff_at.
    rewrite Nat2Z.inj_succ, Z.pow_succ_r by lia.
    assert (0 < 2 ^ Z.of_nat n)%Z by (apply Z.pow_pos_nonneg; lia). lia.
Qed.

Lemma backoff_within_a_call_witness :
  (exists r w',
     step3_get_issue_price Sample.decimal_float
       (site_of [too_many_requests; too_many_requests; too_many_requests;
                 RespOk (Some "98,75")] ∅) 4 "9" start_of_run = Some (Return r, w') /\
     pauses w' = pauses start_of_run ++ (backoff_at <$> seq 0 3)) /\
  (backoff_at <$> seq 0 6) = [60; 120; 240; 480; 600; 600]%Z /\
  (forall n, (backoff_at n <= backoff_at (S n) <= 600)%Z).
Proof.
  apply (backoff_within_a_call Sample.decimal_float
           (site_of [too_many_requests; too_many_requests; too_many_requests;
                     RespOk (Some "98,75")] ∅) 4 "9" start_of_run 3).
  - intros i Hi. destruct i as [|[|[|i]]]; [reflexivity .. | lia].
  - reflexivity.
  - lia.
Defined.



(** C8 (decimal normalization).  On a reply with an [issueprice] tag, the
    call returns what [float()] gives on the text of the tag, stripped and
    with every comma turned into a point, and null when [float()] rejects
    it; the text "98,75" is handed to [float()] as "98.75". *)
Theorem fetcher_normalizes_decimal (py_float : string -> option num) (remote : site)
    (fuel : nat) (bond_id : string) (w : world) (text : string) :
  detail remote (length (requests w)) = RespOk (Some text) ->
  step3_get_issue_price py_float remote (S fuel) bond_id w
    = Some (Return (py_float (PyStr.replace "," "." (PyStr.strip text))),
            sent bond_id w) /\
  (py_float (PyStr.replace "," "." (PyStr.strip text)) = None ->
   step3_get_issue_price py_float remote (S fuel) bond_id w
     = Some (Return None, sent bond_id w)) /\
  PyStr.replace "," "." (PyStr.strip "98,75") = "98.75".
Proof.
  intros Hresp.
  assert (Hrun : step3_get_issue_price py_float remote (S fuel) bond_id w
                 = Some (Return (py_float (PyStr.replace "," "." (PyStr.strip text))),
                         sent bond_id w)).
  { unfold step3_get_issue_price. rewrite fetch_loop_settle by (by rewrite Hresp).
    rewrite Hresp. unfold settled. simpl. unfold parse_price, price_text.
    by destruct (py_float _). }
  split; [done |]. split; [|reflexivity].
  intros Hnone. by rewrite Hrun, Hnone.
Qed.

(** With a parser that reads plain decimal numerals, the text "98,75" comes
    back as the number 98.75, and a text that is no numeral as null. *)
Lemma fetcher_normalizes_decimal_witness :
  (step3_get_issue_price Sample.decimal_float
     (site_of [RespOk (Some "98,75")] ∅) 1 "9" start_of_run
     = Some (Return (Sample.decimal_float
                       (PyStr.replace "," "." (PyStr.strip "98,75"))),
             sent "9" start_of_run) /\
   (Sample.decimal_float (PyStr.replace "," "." (PyStr.strip "98,75")) = None ->
    step3_get_issue_price Sample.decimal_float
      (site_of [RespOk (Some "98,75")] ∅) 1 "9" start_of_run
      = Some (Return None, sent "9" start_of_run)) /\
   PyStr.replace "," "." (PyStr.strip "98,75") = "98.75") /\
  Sample.decimal_float "98.75" = Some (num_frac 9875 100) /\
  step3_get_issue_price Sample.decimal_float
     (site_of [RespOk (Some "n.d.")] ∅) 1 "9" start_of_run
     = Some (Return None, sent "9" start_of_run).
Proof.
  split; [|split].
  - apply (fetcher_normalizes_decimal Sample.decimal_float
             (site_of [RespOk (Some "98,75")] ∅) 0 "9" start_of_run "98,75").
    reflexivity.
  - reflexivity.
  - reflexivity.
Defined.

Lemma fetch_loop_more_fuel (py_float : string -> option num) (remote : site)
    (fuel : nat) :
  forall (fuel' : nat) (bond_id : string) (backoff : Z) (w : world)
         (res : outcome (option num) * world),
    fetch_loop py_float remote fuel bond_id backoff w = Some res ->
    fuel <= fuel' ->
    fetch_loop py_float remote fuel' bond_id backoff w = Some res.
Proof.
  induction fuel as [|fuel IH]; intros fuel' bond_id backoff w res; [done |].
  intros Hrun Hle. destruct fuel' as [|fuel']; [lia |].
  destruct (is_rate_limit (detail remote (length (requests w)))) eqn:E.
  - rewrite fetch_loop_retry in * by done. apply IH; [done | lia].
  - by rewrite fetch_loop_settle in * by done.
Qed.

(** Under rate-limit signals without end the loop never ends. *)
Lemma fetch_loop_throttled_forever (py_float : string -> option num)
    (remote : site) (fuel : nat) :
  (forall n, is_rate_limit (detail remote n) = true) ->
  forall (bond_id : string) (backoff : Z) (w : world),
    fetch_loop py_float remote fuel bond_id backoff w = None.
Proof.
  intros Hall. induction fuel as [|fuel IH]; intros bond_id backoff w; [done |].
  rewrite fetch_loop_retry by apply Hall. apply IH.
Qed.

(** C10 (termination under bounded throttling).  If from some request on
    the site sends no rate-limit signal, every call of the fetcher returns:
    there is an amount of fuel with which, and with any larger one, the
    loop ends with a value and without an exception. *)
Theorem fetcher_terminates (py_float : string -> option num) (remote : site)
    (N : nat) (bond_id : string) (w : world) :
  calm_from remote N ->
  exists fuel r w',
    forall fuel', fuel <= fuel' ->
      step3_get_issue_price py_float remote fuel' bond_id w = Some (Return r, w').
Proof.
  intros Hcalm.
  destruct (fetch_loop_fuel py_float remote N N (S N) bond_id initial_backoff w)
    as (r & w' & Hrun); [done | lia | lia |].
  exists (S N), r, w'. intros fuel' Hfuel'.
  by apply (fetch_loop_more_fuel py_float remote (S N)).
Qed.

Lemma fetcher_terminates_witness :
  exists fuel r w',
    forall fuel', fuel <= fuel' ->
      step3_get_issue_price Sample.decimal_float
        (site_of [too_many_requests; too_many_requests; RespOk (Some "100")] ∅)
        fuel' "9" start_of_run = Some (Return r, w').
Proof.
  apply (fetcher_terminates Sample.decimal_float
           (site_of [too_many_requests; too_many_requests; RespOk (Some "100")] ∅)
           2 "9" start_of_run).
  intros i Hi. destruct i as [|[|[|i]]]; [lia | lia | reflexivity | reflexivity].
Defined.

(** ** The planner *)

Lemma missing_or_none_spec (r : record) (field : string) :
  missing_or_none r field = true <->
  PyDict.get r field = None \/ PyDict.get r field = Some VNone.
Proof.
  unfold missing_or_none. destruct (PyDict.get r field) as [v|].
  - destruct v; simpl; split; intros H; try done; try (by right);
      destruct H as [H|H]; done.
  - split; [by left | done].
Qed.

Lemma needs_enrichment_spec (r : record) :
  needs_enrichment r = true <->
  PyDict.get r "bondid" = None \/ PyDict.get r "bondid" = Some VNone \/
  PyDict.get r "issueprice" = None \/ PyDict.get r "issueprice" = Some VNone.
Proof.
  unfold needs_enrichment. rewrite orb_true_iff, !missing_or_none_spec. tauto.
Qed.

Lemma needs_enrichment_valid (r : record) :
  needs_enrichment r = false <-> valid_field r "bondid" /\ valid_field r "issueprice".
Proof.
  unfold needs_enrichment, missing_or_none, valid_field.
  rewrite orb_false_iff. split.
  - intros [Hb Hp].
    destruct (PyDict.get r "bondid") as [b|]; [|done].
    destruct (PyDict.get r "issueprice") as [p|]; [|done].
    split; eexists; (split; [done |]); intros ->; done.
  - intros [(b & Hb & Hbn) (p & Hp & Hpn)]. rewrite Hb, Hp.
    by destruct b, p.
Qed.

Lemma isin_to_process_spec (isin_column : string) (json_data : list record) :
  keyed isin_column json_data ->
  exists S, isin_to_process isin_column json_data = Return S /\
    forall k, k ∈ S <->
      exists r, r ∈ json_data /\ key_of isin_column r = Some k /\
                needs_enrichment r = true.
Proof.
  induction json_data as [|r rest IH]; intros Hk; simpl.
  - exists ∅. split; [done |]. intros k. split; [set_solver |].
    intros (r & Hr & _). by apply elem_of_nil in Hr.
  - apply Forall_cons in Hk as [[v Hv] Hk].
    destruct (IH Hk) as (S & HS & Hin).
    assert (Hr : key_of isin_column r = Some (py_key v))
      by (unfold key_of; by rewrite Hv).
    destruct (needs_enrichment r) eqn:Hneed.
    + unfold PyDict.getitem. rewrite Hv, HS. simpl.
      eexists. split; [done |]. intros k.
      rewrite elem_of_union, elem_of_singleton, Hin. split.
      * intros [-> | (r' & Hr' & Hkey & Hn)].
        -- exists r. split; [by constructor | done].
        -- exists r'. split; [by constructor | done].
      * intros (r' & Hr' & Hkey & Hn).
        apply elem_of_cons in Hr' as [-> | Hr'].
        -- left. rewrite Hr in Hkey. by injection Hkey.
        -- right. eauto.
    + exists S. split; [done |]. intros k. rewrite Hin. split.
      * intros (r' & Hr' & Hkey & Hn). exists r'. split; [by constructor | done].
      * intros (r' & Hr' & Hkey & Hn).
        apply elem_of_cons in Hr' as [-> | Hr']; [congruence | eauto].
Qed.

Lemma catalog_key_unique (isin_column : string) (data : list record)
    (r r' : record) (k : value) :
  NoDup (key_of isin_column <$> data) ->
  r ∈ data -> r' ∈ data ->
  key_of isin_column r = Some k -> key_of isin_column r' = Some k -> r = r'.
Proof.
  induction data as [|x data IH]; intros Hnd Hr Hr' Hk Hk'.
  - by apply elem_of_nil in Hr.
  - rewrite fmap_cons in Hnd. apply NoDup_cons in Hnd as [Hfresh Hnd].
    apply elem_of_cons in Hr as [-> | Hr];
      apply elem_of_cons in Hr' as [-> | Hr']; [done | | | by apply IH].
    + exfalso. apply Hfresh. rewrite Hk, <- Hk'. by apply list_elem_of_fmap_2.
    + exfalso. apply Hfresh. rewrite Hk', <- Hk. by apply list_elem_of_fmap_2.
Qed.

(** C4 (planner minimality).  For a catalog (every record keyed, no two
    records with one key) the set [isin_to_process] is computed, and the
    identifier of a record is in it if and only if the [bondid] of the
    record is missing or null or its [issueprice] is missing or null; the
    list [records_to_process] holds exactly those records. *)
Theorem planner_minimality (isin_column : string) (json_data : list record) :
  catalog isin_column json_data ->
  exists S, isin_to_process isin_column json_data = Return S /\
    (forall r k, r ∈ json_data -> key_of isin_column r = Some k ->
       (k ∈ S <->
        PyDict.get r "bondid" = None \/ PyDict.get r "bondid" = Some VNone \/
        PyDict.get r "issueprice" = None \/ PyDict.get r "issueprice" = Some VNone)) /\
    (forall r k, r ∈ json_data -> key_of isin_column r = Some k ->
       valid_field r "bondid" -> PyDict.get r "issueprice" = Some VNone -> k ∈ S) /\
    (forall r k, r ∈ json_data -> key_of isin_column r = Some k ->
       valid_field r "bondid" -> valid_field r "issueprice" -> k ∉ S) /\
    (forall r, r ∈ records_to_process json_data <->
       r ∈ json_data /\
       (PyDict.get r "bondid" = None \/ PyDict.get r "bondid" = Some VNone \/
        PyDict.get r "issueprice" = None \/ PyDict.get r "issueprice" = Some VNone)).
Proof.
  intros [Hkeyed Hnd].
  destruct (isin_to_process_spec isin_column json_data Hkeyed) as (S & HS & Hin).
  assert (Hiff : forall r k, r ∈ json_data -> key_of isin_column r = Some k ->
                   (k ∈ S <-> needs_enrichment r = true)).
  { intros r k Hr Hk. rewrite Hin. split.
    - intros (r' & Hr' & Hk' & Hn).
      by rewrite (catalog_key_unique isin_column json_data r r' k).
    - intros Hn. eauto. }
  exists S. split; [done |]. split; [|split; [|split]].
  - intros r k Hr Hk. by rewrite Hiff, needs_enrichment_spec.
  - intros r k Hr Hk _ Hp. rewrite (Hiff r k Hr Hk), needs_enrichment_spec. tauto.
  - intros r k Hr Hk Hb Hp. rewrite (Hiff r k Hr Hk).
    assert (needs_enrichment r = false) as -> by (by apply needs_enrichment_valid).
    done.
  - intros r. unfold records_to_process.
    rewrite <- needs_enrichment_spec, list_elem_of_In, List.filter_In,
      <- list_elem_of_In. done.
Qed.

Lemma planner_minimality_witness :
  exists S,
    isin_to_process "ISIN"
      [[("ISIN", VStr "A"); ("bondid", VStr "7"); ("issueprice", VNone)];
       [("ISIN", VStr "B"); ("bondid", VStr "8");
        ("issueprice", VNum (num_of_Z 100))]] = Return S /\
    VStr "A" ∈ S /\ VStr "B" ∉ S.
Proof.
  destruct (planner_minimality "ISIN"
              [[("ISIN", VStr "A"); ("bondid", VStr "7"); ("issueprice", VNone)];
               [("ISIN", VStr "B"); ("bondid", VStr "8");
                ("issueprice", VNum (num_of_Z 100))]])
    as (S & HS & _ & Hretry & Hskip & _).
  - split.
    + repeat constructor; by eexists.
    + apply NoDup_cons. split.
      * intros H. apply list_elem_of_singleton in H. discriminate H.
      * apply NoDup_singleton.
  - exists S. split; [exact HS |]. split.
    + apply (Hretry [("ISIN", VStr "A"); ("bondid", VStr "7"); ("issueprice", VNone)]).
      * apply elem_of_cons. by left.
      * reflexivity.
      * exists (VStr "7"). split; [reflexivity | discriminate].
      * reflexivity.
    + apply (Hskip [("ISIN", VStr "B"); ("bondid", VStr "8");
                    ("issueprice", VNum (num_of_Z 100))]).
      * apply elem_of_cons. right. apply elem_of_cons. by left.
      * reflexivity.
      * exists (VStr "8"). split; [reflexivity | discriminate].
      * exists (VNum (num_of_Z 100)). split; [reflexivity | discriminate].
Defined.

Lemma isin_to_process_none (isin_column : string) (json_data : list record) :
  Forall (fun r => needs_enrichment r = false) json_data ->
  isin_to_process isin_column json_data = Return ∅ /\
  records_to_process json_data = [].
Proof.
  unfold records_to_process.
  induction json_data as [|r rest IH]; intros H; simpl; [done |].
  apply Forall_cons in H as [Hr Hrest]. rewrite Hr. by apply IH.
Qed.

(** C5 (zero-cost re-run).  When every record of the catalog has [bondid]
    and [issueprice] present and not null, the set [isin_to_process] and the
    list [records_to_process] are empty, and the planning and enrichment of
    [main] end with the catalog as it was, in the state of the run in which
    they started: no request of the directory page, no detail request, no
    pause. *)
Theorem zero_cost_rerun (py_float : string -> option num) (remote : site)
    (fuel : nat) (isin_column : string) (json_data : list record) (w : world) :
  Forall (fun r => valid_field r "bondid" /\ valid_field r "issueprice") json_data ->
  isin_to_process isin_column json_data = Return ∅ /\
  records_to_process json_data = [] /\
  plan_and_enrich py_float remote fuel isin_column json_data w
    = Some (Return json_data, w).
Proof.
  intros Hvalid.
  destruct (isin_to_process_none isin_column json_data) as [Hset Hlist].
  { eapply Forall_impl; [exact Hvalid |]. intros r Hr.
    by apply needs_enrichment_valid. }
  split; [done |]. split; [done |].
  unfold plan_and_enrich, and_then, lift, ret.
  rewrite Hset, Hlist. by rewrite decide_True.
Qed.

Lemma zero_cost_rerun_witness :
  isin_to_process "ISIN"
    [[("ISIN", VStr "A"); ("price", VNum (num_of_Z 101));
      ("bondid", VStr "7"); ("issueprice", VNum (num_frac 995 10))]] = Return ∅ /\
  records_to_process
    [[("ISIN", VStr "A"); ("price", VNum (num_of_Z 101));
      ("bondid", VStr "7"); ("issueprice", VNum (num_frac 995 10))]] = [] /\
  plan_and_enrich Sample.decimal_float
    (site_of [too_many_requests] {["A" := "7"]}) 0 "ISIN"
    [[("ISIN", VStr "A"); ("price", VNum (num_of_Z 101));
      ("bondid", VStr "7"); ("issueprice", VNum (num_frac 995 10))]] start_of_run
  = Some (Return
            [[("ISIN", VStr "A"); ("price", VNum (num_of_Z 101));
              ("bondid", VStr "7"); ("issueprice", VNum (num_frac 995 10))]],
          start_of_run).
Proof.
  apply (zero_cost_rerun Sample.decimal_float
           (site_of [too_many_requests] {["A" := "7"]}) 0 "ISIN").
  repeat constructor.
  - exists (VStr "7"). split; [reflexivity | discriminate].
  - exists (VNum (num_frac 995 10)). split; [reflexivity | discriminate].
Defined.

(** ** step3_enrich_with_issue_prices *)

Lemma fetch_loop_requests (py_float : string -> option num) (remote : site)
    (fuel : nat) :
  forall (bond_id : string) (backoff : Z) (w : world)
         (res : outcome (option num)) (w' : world),
    fetch_loop py_float remote fuel bond_id backoff w = Some (res, w') ->
    exists n, requests w' = requests w ++ replicate (S n) bond_id.
Proof.
  induction fuel as [|fuel IH]; intros bond_id backoff w res w'; [done |].
  destruct (is_rate_limit (detail remote (length (requests w)))) eqn:E.
  - rewrite fetch_loop_retry by done. intros Hrun.
    destruct (IH _ _ _ _ _ Hrun) as [n Hn].
    exists (S n). rewrite Hn. simpl. by rewrite <- app_assoc.
  - rewrite fetch_loop_settle by done. intros [= _ <-]. by exists 0.
Qed.

Section EnrichmentFacts.

Variable py_float : string -> option num.
Variable remote : site.
Variable fuel : nat.
Variable isin_column : string.
Variable isin_bond_map : gmap string string.

Lemma enrich_record_counts (r : record) (c : stats) (w : world)
    (r' : record) (c' : stats) (w' : world) :
  enrich_record py_float remote fuel isin_column isin_bond_map r c w
    = Some (Return (r', c'), w') ->
  total_records c' = total_records c /\
  bondid_added c' + (if unresolved isin_column isin_bond_map r then 1 else 0)
    = S (bondid_added c) /\
  price_found c' + price_not_found c' + bondid_added c
    = price_found c + price_not_found c + bondid_added c'.
Proof.
  unfold enrich_record, unresolved.
  destruct (has_issue_price r); simpl.
  - unfold ret. intros [= _ <- _]. simpl. lia.
  - destruct (bond_id_of isin_bond_map (default VNone (PyDict.get r isin_column)))
      as [bond_id|].
    + unfold and_then.
      destruct (step3_get_issue_price py_float remote fuel bond_id w)
        as [[[issue_price|e] w1]|]; [|done..].
      destruct (price_truthy issue_price); unfold ret;
        intros [= _ <- _]; simpl; lia.
    + unfold ret. intros [= _ <- _]. lia.
Qed.

Lemma enrich_loop_counts (json_data : list record) :
  forall (c : stats) (w : world) (out : list record) (c' : stats) (w' : world),
    enrich_loop py_float remote fuel isin_column isin_bond_map json_data c w
      = Some (Return (out, c'), w') ->
    length out = length json_data /\
    total_records c' = total_records c /\
    bondid_added c'
      + length (List.filter (unresolved isin_column isin_bond_map) json_data)
      = bondid_added c + length json_data /\
    price_found c' + price_not_found c' + bondid_added c
      = price_found c + price_not_found c + bondid_added c'.
Proof.
  induction json_data as [|r rest IH]; intros c w out c' w'; simpl.
  - unfold ret. intros [= <- <- _]. simpl. lia.
  - unfold and_then at 1.
    destruct (enrich_record py_float remote fuel isin_column isin_bond_map r c w)
      as [[[[r1 c1]|e] w1]|] eqn:Hrec; [|done..].
    unfold and_then at 1. simpl.
    destruct (enrich_loop py_float remote fuel isin_column isin_bond_map rest c1 w1)
      as [[[[out2 c2]|e] w2]|] eqn:Hrest; [|done..].
    unfold ret. simpl. intros [= <- <- _].
    destruct (enrich_record_counts _ _ _ _ _ _ Hrec) as (Ht & Hb & Hp).
    destruct (IH _ _ _ _ _ Hrest) as (Hl & Ht' & Hb' & Hp').
    destruct (unresolved isin_column isin_bond_map r); simpl; lia.
Qed.

(** When the site is calm from the request [N] on and the fuel exceeds
    [N], the loop over the worklist ends. *)
Lemma enrich_loop_returns (N : nat) (json_data : list record) :
  calm_from remote N -> N < fuel ->
  forall (c : stats) (w : world),
    exists out c' w',
      enrich_loop py_float remote fuel isin_column isin_bond_map json_data c w
        = Some (Return (out, c'), w').
Proof.
  intros Hcalm Hfuel.
  induction json_data as [|r rest IH]; intros c w; simpl; [unfold ret; eauto |].
  assert (Hrec : exists r1 c1 w1,
             enrich_record py_float remote fuel isin_column isin_bond_map r c w
             = Some (Return (r1, c1), w1)).
  { unfold enrich_record. destruct (has_issue_price r); [unfold ret; eauto |].
    destruct (bond_id_of isin_bond_map (default VNone (PyDict.get r isin_column)))
      as [bond_id|]; [|unfold ret; eauto].
    destruct (fetch_loop_fuel py_float remote N N fuel bond_id initial_backoff w)
      as (p & w1 & Hrun); [done | lia | lia |].
    unfold and_then, step3_get_issue_price. rewrite Hrun.
    destruct (price_truthy p); unfold ret; eauto. }
  destruct Hrec as (r1 & c1 & w1 & Hrec).
  destruct (IH c1 w1) as (out & c' & w' & Hrest).
  unfold and_then. rewrite Hrec. simpl. rewrite Hrest. unfold ret. simpl. eauto.
Qed.

End EnrichmentFacts.

(** C9 (exact aggregate counts).  Whenever the enrichment prints its final
    report, the counters of the report satisfy: the total is the size of
    the worklist; bond ids added plus the number of records left without a
    bond id (no issue price yet, identifier not in the mapping) is the
    total; prices found plus prices not found is bond ids added. *)
Theorem exact_aggregate_counts (py_float : string -> option num) (remote : site)
    (fuel : nat) (json_data : list record) (isin_bond_map : gmap string string)
    (w : world) (out : list record) (s : stats) (w' : world) :
  step3_enrich_with_issue_prices py_float remote fuel json_data isin_bond_map w
    = Some (Return (out, Some s), w') ->
  total_records s = length json_data /\
  bondid_added s + unresolved_mapping json_data isin_bond_map = length json_data /\
  price_found s + price_not_found s = bondid_added s.
Proof.
  unfold step3_enrich_with_issue_prices, unresolved_mapping.
  destruct json_data as [|sample rest]; [done |].
  destruct (decide (isin_bond_map = ∅)); [done |].
  destruct (find_isin_column sample) as [isin_column|]; [|done].
  unfold and_then.
  destruct (enrich_loop py_float remote fuel isin_column isin_bond_map
              (sample :: rest) (no_counts (length (sample :: rest))) w)
    as [[[[out1 c1]|e] w1]|] eqn:Hloop; [|done..].
  unfold ret. simpl fst. simpl snd. intros [= _ <- _].
  destruct (enrich_loop_counts _ _ _ _ _ _ _ _ _ _ _ Hloop) as (_ & Ht & Hb & Hp).
  simpl in Ht, Hb, Hp. simpl length. lia.
Qed.

(** With a non-empty worklist and mapping, an ISIN column in the first
    record and a site that is calm from the request [N] on, the enrichment
    ends and prints its report. *)
Lemma enrichment_reports (py_float : string -> option num) (remote : site)
    (fuel N : nat) (sample : record) (rest : list record)
    (isin_bond_map : gmap string string) (w : world) :
  calm_from remote N -> N < fuel ->
  isin_bond_map ≠ ∅ -> is_Some (find_isin_column sample) ->
  exists out s w',
    step3_enrich_with_issue_prices py_float remote fuel (sample :: rest)
      isin_bond_map w = Some (Return (out, Some s), w').
Proof.
  intros Hcalm Hfuel Hmap [isin_column Hcol].
  unfold step3_enrich_with_issue_prices.
  rewrite decide_False by done. rewrite Hcol.
  destruct (enrich_loop_returns py_float remote fuel isin_column isin_bond_map
              N (sample :: rest) Hcalm Hfuel
              (no_counts (length (sample :: rest))) w) as (out & c & w' & Hloop).
  unfold and_then. rewrite Hloop. unfold ret. simpl. eauto.
Qed.

Lemma exact_aggregate_counts_witness :
  total_records (count_found (no_counts 2)) = 2 /\
  bondid_added (count_found (no_counts 2))
    + unresolved_mapping
        [[("ISIN", VStr "A"); ("price", VNum (num_of_Z 101))];
         [("ISIN", VStr "B"); ("price", VNum (num_of_Z 50))]]
        {["A" := "7"]} = 2 /\
  price_found (count_found (no_counts 2))
    + price_not_found (count_found (no_counts 2))
    = bondid_added (count_found (no_counts 2)).
Proof.
  apply (exact_aggregate_counts Sample.decimal_float
           (site_of [too_many_requests; RespOk (Some "98,75")] ∅) 2
           [[("ISIN", VStr "A"); ("price", VNum (num_of_Z 101))];
            [("ISIN", VStr "B"); ("price", VNum (num_of_Z 50))]]
           {["A" := "7"]}
           start_of_run
           [[("ISIN", VStr "A"); ("price", VNum (num_of_Z 101));
             ("bondid", VStr "7"); ("issueprice", VNum (num_frac 9875 100))];
            [("ISIN", VStr "B"); ("price", VNum (num_of_Z 50));
             ("bondid", VNone); ("issueprice", VNone)]]
           (count_found (no_counts 2))
           {| requests := ["7"; "7"]; pauses := [60%Z]; directory_requests := 0 |}).
  reflexivity.
Defined.


(** A fetched price of zero is not kept: [if issue_price:] is false for
    0.0, the record gets a null [issueprice] and a price not found is
    counted. *)
Lemma zero_price_is_counted_not_found :
  Sample.decimal_float "0" = Some (num_of_Z 0) /\
  enrich_record Sample.decimal_float (site_of [RespOk (Some "0")] ∅) 1 "ISIN"
    {["A" := "7"]}
    [("ISIN", VStr "A"); ("price", VNum (num_of_Z 101))]
    (no_counts 1) start_of_run
  = Some (Return ([("ISIN", VStr "A"); ("price", VNum (num_of_Z 101));
                   ("bondid", VStr "7"); ("issueprice", VNone)],
                  count_not_found (no_counts 1)),
          {| requests := ["7"]; pauses := []; directory_requests := 0 |}).
Proof. split; reflexivity. Qed.

(** * Further properties of the code *)

(** ** Dictionaries and the index *)

Lemma get_elem (r : record) (k : string) (v : value) :
  well_formed r -> (k, v) ∈ r -> PyDict.get r k = Some v.
Proof.
  unfold well_formed, PyDict.keys.
  induction r as [|[k' v'] r IH]; intros Hnd Hin.
  - by apply elem_of_nil in Hin.
  - simpl in Hnd. apply NoDup_cons in Hnd as [Hfresh Hnd]. simpl.
    apply elem_of_cons in Hin as [[= -> ->] | Hin].
    + by rewrite String.eqb_refl.
    + destruct (String.eqb k' k) eqn:E; [|by apply IH].
      apply String.eqb_eq in E. subst k'. exfalso. apply Hfresh.
      apply list_elem_of_In, in_map_iff. exists (k, v).
      split; [done | by apply list_elem_of_In].
Qed.

Lemma update_fixed (e d : record) :
  (forall k v, (k, v) ∈ e -> PyDict.get d k = Some v) -> PyDict.update d e = d.
Proof.
  unfold PyDict.update. induction e as [|[k v] e IH]; intros H; simpl; [done |].
  rewrite set_same by (apply H; by constructor).
  apply IH. intros k' v' Hin. apply H. by constructor.
Qed.

Lemma update_self (r : record) : well_formed r -> PyDict.update r r = r.
Proof. intros Hwf. apply update_fixed. intros k v. by apply get_elem. Qed.

Lemma index_by_keyed (isin_column : string) (data : list record)
    (acc : gmap value record) :
  keyed isin_column data ->
  exists m, index_by isin_column data acc = Return m /\
    (forall k, Some k ∉ key_of isin_column <$> data -> m !! k = acc !! k) /\
    (forall k r, m !! k = Some r ->
       acc !! k = Some r \/ (r ∈ data /\ key_of isin_column r = Some k)).
Proof.
  revert acc. induction data as [|r data IH]; intros acc Hk.
  - exists acc. simpl. split; [done |]. split; [done | by left].
  - apply Forall_cons in Hk as [[v Hv] Hk].
    assert (Hr : key_of isin_column r = Some (py_key v))
      by (unfold key_of; by rewrite Hv).
    destruct (IH (<[py_key v := r]> acc) Hk) as (m & Hm & Hout & Hin).
    exists m. split; [|split].
    + simpl. unfold PyDict.getitem. by rewrite Hv.
    + intros k Hnot. rewrite fmap_cons in Hnot.
      apply not_elem_of_cons in Hnot as [Hne Hnot].
      rewrite Hout by done. apply lookup_insert_ne.
      intros <-. by rewrite Hr in Hne.
    + intros k r' Hlk. destruct (Hin k r' Hlk) as [Hacc | [Hr' Hk']].
      * destruct (decide (py_key v = k)) as [<- | Hne].
        -- rewrite lookup_insert_eq in Hacc. injection Hacc as <-.
           right. split; [by constructor | done].
        -- rewrite lookup_insert_ne in Hacc by done. by left.
      * right. split; [by constructor | done].
Qed.

Lemma index_by_key_error (isin_column : string) (data : list record)
    (acc : gmap value record) :
  Exists (fun r => PyDict.get r isin_column = None) data ->
  index_by isin_column data acc = Raise (KeyError isin_column).
Proof.
  revert acc. induction data as [|r data IH]; intros acc H.
  - by apply Exists_nil in H.
  - simpl. unfold PyDict.getitem.
    destruct (PyDict.get r isin_column) as [v|] eqn:Hv; [|done].
    apply Exists_cons in H as [H | H]; [congruence |].
    simpl. by apply IH.
Qed.

Lemma merge_records_key_error (isin_column : string) (m : gmap value record)
    (new_data : list record) :
  Exists (fun r => PyDict.get r isin_column = None) new_data ->
  for_each (merge_record isin_column m) new_data = Raise (KeyError isin_column).
Proof.
  induction new_data as [|r rest IH]; intros H.
  - by apply Exists_nil in H.
  - simpl. unfold merge_record at 1, PyDict.getitem.
    destruct (PyDict.get r isin_column) as [v|] eqn:Hv; [|done].
    apply Exists_cons in H as [H | H]; [congruence |].
    simpl. rewrite (IH H). by destruct (m !! py_key v).
Qed.

Lemma merge_records_return (isin_column : string) (m : gmap value record)
    (new_data : list record) :
  keyed isin_column new_data ->
  exists out, for_each (merge_record isin_column m) new_data = Return out.
Proof.
  intros Hkeyed. apply for_each_total. intros x Hx.
  unfold keyed in Hkeyed. rewrite Forall_forall in Hkeyed.
  destruct (Hkeyed x Hx) as [kx Hkx].
  unfold merge_record, PyDict.getitem. rewrite Hkx. simpl.
  destruct (m !! py_key kx); eauto.
Qed.

(** [merge_data] with previous data that are not empty. *)
Lemma merge_data_unfold (isin_column : string) (existing new_data : list record) :
  existing ≠ [] ->
  merge_data (Some existing) new_data isin_column =
  bind (index_by isin_column existing ∅)
    (fun existing_dict =>
       for_each (merge_record isin_column existing_dict) new_data).
Proof. intros H. by destruct existing. Qed.

(** ** merge_data, further *)

(** X1.  When the previous data are not empty, [merge_data] raises
    [KeyError] for the identifier column exactly when a previous or an
    incoming record has no such column; otherwise it returns a list. *)
Theorem merge_data_key_error (isin_column : string)
    (existing new_data : list record) :
  existing ≠ [] ->
  (Exists (fun r => PyDict.get r isin_column = None) (existing ++ new_data) ->
   merge_data (Some existing) new_data isin_column = Raise (KeyError isin_column)) /\
  (keyed isin_column (existing ++ new_data) ->
   exists out, merge_data (Some existing) new_data isin_column = Return out).
Proof.
  intros Hne. rewrite merge_data_unfold by done. split.
  - intros H. apply Exists_app in H.
    destruct (decide (Exists (fun r => PyDict.get r isin_column = None) existing))
      as [Hex | Hex].
    + by rewrite index_by_key_error.
    + destruct H as [H | H]; [done |].
      assert (Hk : keyed isin_column existing).
      { unfold keyed. apply Forall_forall. intros r Hr.
        destruct (PyDict.get r isin_column) eqn:E; [by eexists |].
        exfalso. apply Hex. apply Exists_exists. eauto. }
      destruct (index_by_keyed isin_column existing ∅ Hk) as (m & -> & _).
      simpl. by apply merge_records_key_error.
  - intros H. unfold keyed in H. apply Forall_app in H as [Hk Hn].
    destruct (index_by_keyed isin_column existing ∅ Hk) as (m & -> & _).
    simpl. by apply merge_records_return.
Qed.

Lemma merge_data_key_error_witness :
  merge_data
    (Some [[("ISIN", VStr "A"); ("bondid", VStr "7")]])
    [[("ISIN", VStr "A")]; [("price", VNum (num_of_Z 50))]] "ISIN"
  = Raise (KeyError "ISIN").
Proof.
  apply (merge_data_key_error "ISIN"
           [[("ISIN", VStr "A"); ("bondid", VStr "7")]]
           [[("ISIN", VStr "A")]; [("price", VNum (num_of_Z 50))]]).
  - discriminate.
  - apply Exists_cons. right. apply Exists_cons. right.
    apply Exists_cons. by left.
Defined.

Lemma index_by_return_keyed (isin_column : string) (data : list record) :
  forall (acc m : gmap value record),
    index_by isin_column data acc = Return m -> keyed isin_column data.
Proof.
  induction data as [|r data IH]; intros acc m H; [by constructor |].
  simpl in H. unfold PyDict.getitem in H.
  destruct (PyDict.get r isin_column) as [v|] eqn:Hv; [|done].
  simpl in H. constructor; [by eexists | by eapply IH].
Qed.

Lemma for_each_fmap {A B C : Type} (f : A -> outcome B) (g : A -> C) (h : B -> C)
    (xs : list A) (ys : list B) :
  (forall x y, x ∈ xs -> f x = Return y -> h y = g x) ->
  for_each f xs = Return ys -> h <$> ys = g <$> xs.
Proof.
  revert ys. induction xs as [|x xs IH]; intros ys Hf; simpl.
  - by intros [= <-].
  - destruct (f x) as [y|e] eqn:Hy; simpl; [|done].
    destruct (for_each f xs) as [ys'|e] eqn:Hys; simpl; [|done].
    intros [= <-]. rewrite !fmap_cons. f_equal.
    + apply Hf; [by constructor | done].
    + apply IH; [|done]. intros x' y' Hx'. apply Hf. by constructor.
Qed.

Lemma for_each_elem {A B : Type} (f : A -> outcome B) (xs : list A) (ys : list B) (y : B) :
  for_each f xs = Return ys -> y ∈ ys -> exists x, x ∈ xs /\ f x = Return y.
Proof.
  intros Hrun Hy. destruct (for_each_lookup f xs ys Hrun) as [Hlen Hat].
  apply list_elem_of_lookup in Hy as [i Hi].
  destruct (lookup_lt_is_Some_2 xs i) as [x Hx].
  { rewrite <- Hlen. by eapply lookup_lt_Some. }
  destruct (Hat i x Hx) as (y' & Hy' & Hfx).
  exists x. split; [by eapply list_elem_of_lookup_2 |]. congruence.
Qed.

Lemma keep_static_null (old nr : record) (field : string) :
  field ∈ static_fields -> missing_or_none old field = true ->
  PyDict.get (keep_static old nr) field = PyDict.get nr field.
Proof.
  intros Hf Hnull. unfold missing_or_none in Hnull.
  unfold static_fields in Hf. apply elem_of_cons in Hf as [-> | Hf].
  - unfold keep_static, static_fields. simpl.
    destruct (PyDict.get old "bondid") as [v|].
    + rewrite Hnull. destruct (PyDict.get old "issueprice") as [v'|]; [|done].
      destruct (is_none v'); [done | by rewrite get_set_ne].
    + destruct (PyDict.get old "issueprice") as [v'|]; [|done].
      destruct (is_none v'); [done | by rewrite get_set_ne].
  - apply list_elem_of_singleton in Hf as ->.
    unfold keep_static, static_fields. simpl.
    destruct (PyDict.get old "issueprice") as [v'|].
    + rewrite Hnull. destruct (PyDict.get old "bondid") as [v|]; [|done].
      destruct (is_none v); [done | by rewrite get_set_ne].
    + destruct (PyDict.get old "bondid") as [v|]; [|done].
      destruct (is_none v); [done | by rewrite get_set_ne].
Qed.

Lemma keep_static_fixed (old z : record) :
  (forall f v, f ∈ static_fields -> PyDict.get old f = Some v -> v ≠ VNone ->
     PyDict.get z f = Some v) ->
  keep_static old z = z.
Proof.
  intros H. unfold keep_static, static_fields. simpl.
  assert (Hb : forall v, PyDict.get old "bondid" = Some v -> is_none v = false ->
                 PyDict.set z "bondid" v = z).
  { intros v Hv Hn. apply set_same. apply H; [by constructor | done |].
    intros ->. done. }
  assert (Hp : forall v, PyDict.get old "issueprice" = Some v -> is_none v = false ->
                 PyDict.set z "issueprice" v = z).
  { intros v Hv Hn. apply set_same.
    apply H; [apply elem_of_cons; right; by constructor | done |].
    intros ->. done. }
  destruct (PyDict.get old "bondid") as [v|].
  - destruct (is_none v) eqn:Hn.
    + destruct (PyDict.get old "issueprice") as [v'|]; [|done].
      destruct (is_none v') eqn:Hn'; [done | by apply Hp].
    + rewrite (Hb v eq_refl Hn).
      destruct (PyDict.get old "issueprice") as [v'|]; [|done].
      destruct (is_none v') eqn:Hn'; [done | by apply Hp].
  - destruct (PyDict.get old "issueprice") as [v'|]; [|done].
    destruct (is_none v') eqn:Hn'; [done | by apply Hp].
Qed.

Lemma keep_static_twice (old nr : record) :
  keep_static old (keep_static old nr) = keep_static old nr.
Proof.
  apply keep_static_fixed. intros f v Hf Hv Hnn. by apply keep_static_static.
Qed.

(** X2.  When the identifier column is not one of the static fields, the
    list [merge_data] returns has the records of the incoming list, one for
    one and in the same order: the same length and, at every position, the
    same value in the identifier column. *)
Theorem merge_data_keeps_entities (isin_column : string)
    (existing_data : option (list record)) (new_data out : list record) :
  isin_column ∉ static_fields ->
  merge_data existing_data new_data isin_column = Return out ->
  length out = length new_data /\
  (fun r => PyDict.get r isin_column) <$> out
    = (fun r => PyDict.get r isin_column) <$> new_data.
Proof.
  intros Hcol Hrun.
  assert (Hsame : (fun r => PyDict.get r isin_column) <$> out
                  = (fun r => PyDict.get r isin_column) <$> new_data).
  { destruct existing_data as [[|e es]|]; try (by injection Hrun as <-).
    rewrite merge_data_unfold in Hrun by done.
    destruct (index_by isin_column (e :: es) ∅) as [m|err]; [|done].
    simpl in Hrun.
    apply (for_each_fmap (merge_record isin_column m)); [|done].
    intros x y _ Hxy. by apply (merge_record_other isin_column m). }
  split; [|done].
  apply (f_equal length) in Hsame. by rewrite !length_fmap in Hsame.
Qed.

Lemma merge_data_keeps_entities_witness :
  length [[("ISIN", VStr "B"); ("price", VNum (num_of_Z 50))];
          [("ISIN", VStr "A"); ("price", VNum (num_of_Z 101));
           ("bondid", VStr "7")]]
  = length [[("ISIN", VStr "B"); ("price", VNum (num_of_Z 50))];
            [("ISIN", VStr "A"); ("price", VNum (num_of_Z 101))]] /\
  (fun r => PyDict.get r "ISIN")
    <$> [[("ISIN", VStr "B"); ("price", VNum (num_of_Z 50))];
         [("ISIN", VStr "A"); ("price", VNum (num_of_Z 101));
          ("bondid", VStr "7")]]
  = (fun r => PyDict.get r "ISIN")
    <$> [[("ISIN", VStr "B"); ("price", VNum (num_of_Z 50))];
         [("ISIN", VStr "A"); ("price", VNum (num_of_Z 101))]].
Proof.
  apply (merge_data_keeps_entities "ISIN"
           (Some [[("ISIN", VStr "A"); ("price", VNum (num_of_Z 100));
                   ("bondid", VStr "7"); ("issueprice", VNone)];
                  [("ISIN", VStr "Z"); ("bondid", VStr "1")]])).
  - unfold static_fields. intros H.
    apply elem_of_cons in H as [H | H]; [discriminate H |].
    apply list_elem_of_singleton in H. discriminate H.
  - reflexivity.
Defined.

(** X3.  A record of the incoming list whose identifier is the identifier
    of no previous record comes out of [merge_data] as it went in. *)
Theorem merge_data_new_entity (isin_column : string)
    (existing new_data out : list record) (i : nat) (nr : record) :
  merge_data (Some existing) new_data isin_column = Return out ->
  new_data !! i = Some nr ->
  key_of isin_column nr ∉ key_of isin_column <$> existing ->
  out !! i = Some nr.
Proof.
  intros Hrun Hnr Hnew.
  destruct existing as [|e es]; [by injection Hrun as <- |].
  rewrite merge_data_unfold in Hrun by done.
  destruct (index_by isin_column (e :: es) ∅) as [m|err] eqn:Hm; [|done].
  simpl in Hrun.
  pose proof (index_by_return_keyed _ _ _ _ Hm) as Hk.
  destruct (index_by_keyed isin_column (e :: es) ∅ Hk) as (m' & Hm' & Hout & _).
  rewrite Hm in Hm'. injection Hm' as <-.
  destruct (for_each_lookup _ _ _ Hrun) as [_ Hat].
  destruct (Hat i nr Hnr) as (r & Hr & Hmr). rewrite Hr. f_equal.
  unfold merge_record, PyDict.getitem in Hmr. unfold key_of in Hnew.
  destruct (PyDict.get nr isin_column) as [k|]; [|done].
  simpl in Hmr, Hnew. rewrite (Hout (py_key k) Hnew), lookup_empty in Hmr.
  by injection Hmr.
Qed.

Lemma merge_data_new_entity_witness :
  [[("ISIN", VStr "B"); ("price", VNum (num_of_Z 50))];
   [("ISIN", VStr "A"); ("price", VNum (num_of_Z 101)); ("bondid", VStr "7")]]
    !! 0
  = Some [("ISIN", VStr "B"); ("price", VNum (num_of_Z 50))].
Proof.
  apply (merge_data_new_entity "ISIN"
           [[("ISIN", VStr "A"); ("price", VNum (num_of_Z 100));
             ("bondid", VStr "7"); ("issueprice", VNone)]]
           [[("ISIN", VStr "B"); ("price", VNum (num_of_Z 50))];
            [("ISIN", VStr "A"); ("price", VNum (num_of_Z 101))]]).
  - reflexivity.
  - reflexivity.
  - intros H. apply list_elem_of_singleton in H. discriminate H.
Defined.

(** X4.  A static field that is missing or null in the previous record of
    an entity does not touch the incoming record: the field comes out of
    [merge_data] as the incoming record had it, present or not. *)
Theorem merge_data_null_keeps_incoming (isin_column : string)
    (existing new_data out : list record) (i : nat) (prev nr : record)
    (k : value) (field : string) :
  catalog isin_column existing ->
  merge_data (Some existing) new_data isin_column = Return out ->
  prev ∈ existing ->
  new_data !! i = Some nr ->
  key_of isin_column prev = Some k ->
  key_of isin_column nr = Some k ->
  field ∈ static_fields ->
  PyDict.get prev field = None \/ PyDict.get prev field = Some VNone ->
  exists r, out !! i = Some r /\ PyDict.get r field = PyDict.get nr field.
Proof.
  intros Hcat Hrun Hprev Hnr Hkp Hkn Hfield Hnull.
  destruct (index_by_catalog isin_column existing ∅ Hcat) as (m & Hm & Hin & _).
  assert (Hne : existing ≠ []) by (intros ->; by apply elem_of_nil in Hprev).
  rewrite merge_data_unfold, Hm in Hrun by done. simpl in Hrun.
  destruct (for_each_lookup _ _ _ Hrun) as [_ Hat].
  destruct (Hat i nr Hnr) as (r & Hr & Hmr).
  exists r. split; [done |].
  unfold merge_record, PyDict.getitem in Hmr. unfold key_of in Hkn.
  destruct (PyDict.get nr isin_column) as [kn|]; [|done].
  simpl in Hkn, Hmr. injection Hkn as Hkn. rewrite Hkn in Hmr.
  rewrite (Hin prev k Hprev Hkp) in Hmr. injection Hmr as <-.
  apply keep_static_null; [done |]. by apply missing_or_none_spec.
Qed.

Lemma merge_data_null_keeps_incoming_witness :
  exists r,
    [[("ISIN", VStr "A"); ("price", VNum (num_of_Z 101));
      ("issueprice", VNum (num_of_Z 99)); ("bondid", VStr "7")]] !! 0 = Some r /\
    PyDict.get r "issueprice"
    = PyDict.get [("ISIN", VStr "A"); ("price", VNum (num_of_Z 101));
                  ("issueprice", VNum (num_of_Z 99))] "issueprice".
Proof.
  apply (merge_data_null_keeps_incoming "ISIN"
           [[("ISIN", VStr "A"); ("price", VNum (num_of_Z 100));
             ("bondid", VStr "7"); ("issueprice", VNone)]]
           [[("ISIN", VStr "A"); ("price", VNum (num_of_Z 101));
             ("issueprice", VNum (num_of_Z 99))]]
           _ 0
           [("ISIN", VStr "A"); ("price", VNum (num_of_Z 100));
            ("bondid", VStr "7"); ("issueprice", VNone)]
           _ (VStr "A")).
  - split; [repeat constructor; by eexists | apply NoDup_singleton].
  - reflexivity.
  - by constructor.
  - reflexivity.
  - reflexivity.
  - reflexivity.
  - unfold static_fields. apply elem_of_cons. right. by constructor.
  - by right.
Defined.

(** X5.  Merging the result of a merge again with the same previous data
    changes nothing, when the identifier column is not a static field. *)
Theorem merge_data_twice (isin_column : string)
    (existing_data : option (list record)) (new_data out : list record) :
  isin_column ∉ static_fields ->
  merge_data existing_data new_data isin_column = Return out ->
  merge_data existing_data out isin_column = Return out.
Proof.
  intros Hcol Hrun.
  destruct existing_data as [[|e es]|]; try done.
  rewrite merge_data_unfold in * by done.
  destruct (index_by isin_column (e :: es) ∅) as [m|err]; [|done].
  simpl in *. apply for_each_same. intros y Hy.
  destruct (for_each_elem _ _ _ _ Hrun Hy) as (x & _ & Hxy).
  pose proof (merge_record_other isin_column m x y isin_column Hxy Hcol) as Hkey.
  unfold merge_record, PyDict.getitem in *. rewrite Hkey.
  destruct (PyDict.get x isin_column) as [k|]; [|done]. simpl in *.
  destruct (m !! py_key k) as [old|]; [|done].
  injection Hxy as <-. by rewrite keep_static_twice.
Qed.

Lemma merge_data_twice_witness :
  merge_data
    (Some [[("ISIN", VStr "A"); ("price", VNum (num_of_Z 100));
            ("bondid", VStr "7"); ("issueprice", VNum (num_frac 995 10))]])
    [[("ISIN", VStr "A"); ("price", VNum (num_of_Z 101));
      ("bondid", VStr "7"); ("issueprice", VNum (num_frac 995 10))]] "ISIN"
  = Return [[("ISIN", VStr "A"); ("price", VNum (num_of_Z 101));
             ("bondid", VStr "7"); ("issueprice", VNum (num_frac 995 10))]].
Proof.
  apply (merge_data_twice "ISIN" _ [[("ISIN", VStr "A"); ("price", VNum (num_of_Z 101))]]).
  - unfold static_fields. intros H.
    apply elem_of_cons in H as [H | H]; [discriminate H |].
    apply list_elem_of_singleton in H. discriminate H.
  - reflexivity.
Defined.

(** ** step3_get_issue_price, further *)

Lemma fetch_loop_replies (py_float : string -> option num) (remote : site)
    (fuel : nat) :
  forall (bond_id : string) (backoff : Z) (w : world)
         (res : outcome (option num)) (w' : world),
    fetch_loop py_float remote fuel bond_id backoff w = Some (res, w') ->
    exists k, k < fuel /\
      (forall i, i < k ->
         is_rate_limit (detail remote (length (requests w) + i)) = true) /\
      is_rate_limit (detail remote (length (requests w) + k)) = false.
Proof.
  induction fuel as [|fuel IH]; intros bond_id backoff w res w'; [done |].
  destruct (is_rate_limit (detail remote (length (requests w)))) eqn:E.
  - rewrite fetch_loop_retry by done. intros Hrun.
    destruct (IH _ _ _ _ _ Hrun) as (k & Hk & Hthr & Hcalm).
    rewrite length_requests_retry in Hthr, Hcalm.
    exists (S k). split; [lia |]. split.
    + intros [|i] Hi; [by rewrite Nat.add_0_r |].
      replace (length (requests w) + S i) with (S (length (requests w)) + i) by lia.
      apply Hthr. lia.
    + by replace (length (requests w) + S k) with (S (length (requests w)) + k) by lia.
  - intros _. exists 0. split; [lia |]. split; [lia |]. by rewrite Nat.add_0_r.
Qed.

(** X6.  A call of the fetcher that returns has met some number [k] of
    rate-limit signals and then a reply that is none.  It returns what that
    reply comes to; it has sent [k + 1] requests, all for the bond id it was
    called with, has paused [k] times, for the first [k] terms of
    60, 120, 240, 480, 600, 600, ..., and has not asked for the directory
    page. *)
Theorem fetcher_trace (py_float : string -> option num) (remote : site)
    (fuel : nat) (bond_id : string) (w : world)
    (res : outcome (option num)) (w' : world) :
  step3_get_issue_price py_float remote fuel bond_id w = Some (res, w') ->
  exists k,
    (forall i, i < k ->
       is_rate_limit (detail remote (length (requests w) + i)) = true) /\
    is_rate_limit (detail remote (length (requests w) + k)) = false /\
    res = Return (settled py_float (detail remote (length (requests w) + k))) /\
    requests w' = requests w ++ replicate (S k) bond_id /\
    pauses w' = pauses w ++ (backoff_at <$> seq 0 k) /\
    directory_requests w' = directory_requests w.
Proof.
  unfold step3_get_issue_price. intros Hrun.
  destruct (fetch_loop_replies _ _ _ _ _ _ _ _ Hrun) as (k & Hk & Hthr & Hcalm).
  destruct (fetch_loop_throttled py_float remote k fuel bond_id initial_backoff w
              Hthr Hcalm Hk) as (w'' & Hrun' & Hp & Hr & Hd).
  rewrite Hrun in Hrun'. injection Hrun' as -> <-.
  exists k. repeat (split; [done |]). split; [|done].
  rewrite Hp. f_equal. change initial_backoff with (backoff_at 0).
  rewrite backoffs_from_backoff_at, <- list_fmap_compose.
  apply list_fmap_ext. intros _ n _. simpl.
  pose proof (backoff_at_pos n). lia.
Qed.

Lemma fetcher_trace_witness :
  exists k,
    (forall i, i < k ->
       is_rate_limit
         (detail (site_of [too_many_requests; too_many_requests;
                           RespOk (Some "98,75")] ∅)
            (length (requests start_of_run) + i)) = true) /\
    is_rate_limit
      (detail (site_of [too_many_requests; too_many_requests;
                        RespOk (Some "98,75")] ∅)
         (length (requests start_of_run) + k)) = false /\
    Return (Some (num_frac 9875 100))
    = Return (settled Sample.decimal_float
                (detail (site_of [too_many_requests; too_many_requests;
                                  RespOk (Some "98,75")] ∅)
                   (length (requests start_of_run) + k))) /\
    requests {| requests := ["9"; "9"; "9"]; pauses := [60; 120]%Z;
                directory_requests := 0 |}
    = requests start_of_run ++ replicate (S k) "9" /\
    pauses {| requests := ["9"; "9"; "9"]; pauses := [60; 120]%Z;
              directory_requests := 0 |}
    = pauses start_of_run ++ (backoff_at <$> seq 0 k) /\
    directory_requests {| requests := ["9"; "9"; "9"]; pauses := [60; 120]%Z;
                          directory_requests := 0 |}
    = directory_requests start_of_run.
Proof.
  apply (fetcher_trace Sample.decimal_float
           (site_of [too_many_requests; too_many_requests;
                     RespOk (Some "98,75")] ∅) 5 "9" start_of_run).
  reflexivity.
Defined.

(** ** step2_fetch_isin_bondid_mapping: the table *)

Lemma after_prefix_app (p s rest : string) :
  Directory.after_prefix p s = Some rest -> s = p +:+ rest.
Proof.
  revert s. induction p as [|a p IH]; intros s; simpl.
  - by intros [= ->].
  - destruct s as [|b s]; [done |].
    destruct (Ascii.eqb a b) eqn:E; [|done].
    apply Ascii.eqb_eq in E. subst b. intros H. by rewrite (IH s H).
Qed.

Lemma after_prefix_of_app (p rest : string) :
  Directory.after_prefix p (p +:+ rest) = Some rest.
Proof.
  induction p as [|a p IH]; simpl; [done |]. by rewrite Ascii.eqb_refl.
Qed.

Lemma leading_digits_split (s : string) :
  exists rest, s = Directory.leading_digits s +:+ rest /\
    all_digits (Directory.leading_digits s) = true /\ no_digit_ahead rest.
Proof.
  induction s as [|c s (rest & Hs & Hd & Hr)]; simpl.
  - by exists EmptyString.
  - destruct (Directory.is_digit c) eqn:E.
    + exists rest. split; [|split; [|done]].
      * change (String c s = String c (Directory.leading_digits s +:+ rest)).
        by f_equal.
      * simpl. by rewrite E.
    + exists (String c s). by simpl.
Qed.

Lemma match_bond_id_sound (s ds : string) :
  Directory.match_bond_id s = Some ds ->
  exists rest, s = "bondID=" +:+ ds +:+ rest /\
    ds ≠ EmptyString /\ all_digits ds = true /\ no_digit_ahead rest.
Proof.
  unfold Directory.match_bond_id.
  destruct (Directory.after_prefix "bondID=" s) as [tail|] eqn:Hp; [|done].
  apply after_prefix_app in Hp.
  destruct (leading_digits_split tail) as (rest & Ht & Hd & Hr).
  destruct (Directory.leading_digits tail) as [|c ds'] eqn:Hl; [done |].
  intros [= <-]. exists rest. by rewrite Hp, Ht at 1.
Qed.

Lemma search_bond_id_sound (href ds : string) :
  Directory.search_bond_id href = Some ds ->
  exists pre rest, href = pre +:+ "bondID=" +:+ ds +:+ rest /\
    ds ≠ EmptyString /\ all_digits ds = true /\ no_digit_ahead rest.
Proof.
  induction href as [|c href IH]; simpl.
  - done.
  - destruct (Directory.match_bond_id (String c href)) eqn:E.
    + intros [= ->]. destruct (match_bond_id_sound _ _ E) as (rest & H & ?).
      by exists EmptyString, rest.
    + intros H. destruct (IH H) as (pre & rest & Hh & ?).
      exists (String c pre), rest. split; [|done].
      rewrite Hh at 1. reflexivity.
Qed.

Lemma search_of_match (s ds : string) :
  Directory.match_bond_id s = Some ds -> Directory.search_bond_id s = Some ds.
Proof.
  destruct s as [|c t]; [done |].
  intros H. cbn [Directory.search_bond_id]. by rewrite H.
Qed.

Lemma search_bond_id_complete (pre rest : string) (d : ascii) :
  Directory.is_digit d = true ->
  is_Some (Directory.search_bond_id (pre +:+ "bondID=" +:+ String d rest)).
Proof.
  intros Hd. induction pre as [|c pre IH].
  - assert (H : is_Some (Directory.match_bond_id ("bondID=" +:+ String d rest))).
    { unfold Directory.match_bond_id. rewrite after_prefix_of_app.
      cbn [Directory.leading_digits]. rewrite Hd. by eexists. }
    destruct H as [ds Hds]. exists ds. by apply search_of_match.
  - change (String c pre +:+ "bondID=" +:+ String d rest)
      with (String c (pre +:+ "bondID=" +:+ String d rest)).
    cbn [Directory.search_bond_id].
    destruct (Directory.match_bond_id
                (String c (pre +:+ "bondID=" +:+ String d rest)));
      [by eexists | exact IH].
Qed.

(** X7.  The search of a bond id in a link finds one exactly when the link
    holds [bondID=] followed by a digit; what it returns is a non-empty run
    of digits that stands in the link right after [bondID=] and is followed
    by no further digit. *)
Theorem search_bond_id_spec (href : string) :
  (forall ds, Directory.search_bond_id href = Some ds ->
     exists pre rest, href = pre +:+ "bondID=" +:+ ds +:+ rest /\
       ds ≠ EmptyString /\ all_digits ds = true /\ no_digit_ahead rest) /\
  (Directory.search_bond_id href = None ->
   forall pre d rest, href = pre +:+ "bondID=" +:+ String d rest ->
     Directory.is_digit d = false).
Proof.
  split; [apply search_bond_id_sound |].
  intros Hnone pre d rest ->.
  destruct (Directory.is_digit d) eqn:Hd; [|done].
  destruct (search_bond_id_complete pre rest d Hd) as [ds Hds]. congruence.
Qed.

Lemma first_bond_id_sound (cells : list Directory.cell) (bond_id : string) :
  Directory.first_bond_id cells = Some bond_id ->
  exists c href, c ∈ cells /\ Directory.cell_link c = Some (Some href) /\
    Directory.search_bond_id href = Some bond_id.
Proof.
  induction cells as [|c cells IH]; simpl; [done |].
  destruct (Directory.cell_bond_id c) as [b|] eqn:E.
  - intros [= ->]. unfold Directory.cell_bond_id in E.
    destruct (Directory.cell_link c) as [[href|]|] eqn:Hl; try done.
    exists c, href. split; [by constructor | done].
  - intros H. destruct (IH H) as (c' & href & Hc' & ?).
    exists c', href. split; [by constructor | done].
Qed.

Lemma add_row_entry (m : gmap string string) (cells : list Directory.cell)
    (isin bond_id : string) :
  Directory.add_row m cells !! isin = Some bond_id ->
  m !! isin = Some bond_id \/ row_entry cells isin bond_id.
Proof.
  unfold Directory.add_row, row_entry.
  destruct cells as [|first rest]; [by left |].
  destruct (Directory.first_bond_id (first :: rest)) as [b|] eqn:E; [|by left].
  destruct (decide (PyStr.strip (Directory.cell_text first) = isin)) as [<- | Hne].
  - rewrite lookup_insert_eq. intros [= ->]. right. by exists first, rest.
  - rewrite lookup_insert_ne by done. by left.
Qed.

Lemma add_row_other (m : gmap string string) (cells : list Directory.cell)
    (isin : string) :
  (forall b, ~ row_entry cells isin b) ->
  Directory.add_row m cells !! isin = m !! isin.
Proof.
  intros Hno. unfold Directory.add_row.
  destruct cells as [|first rest]; [done |].
  destruct (Directory.first_bond_id (first :: rest)) as [b|] eqn:E; [|done].
  apply lookup_insert_ne. intros Heq. apply (Hno b). by exists first, rest.
Qed.

Lemma add_row_this (m : gmap string string) (cells : list Directory.cell)
    (isin bond_id : string) :
  row_entry cells isin bond_id ->
  Directory.add_row m cells !! isin = Some bond_id.
Proof.
  intros (first & rest & -> & <- & Hb). unfold Directory.add_row.
  rewrite Hb. apply lookup_insert_eq.
Qed.

Lemma fold_add_row_entry (rows : list (list Directory.cell)) :
  forall (m : gmap string string) (isin bond_id : string),
    fold_left Directory.add_row rows m !! isin = Some bond_id ->
    m !! isin = Some bond_id \/
    exists cells, cells ∈ rows /\ row_entry cells isin bond_id.
Proof.
  induction rows as [|cells rows IH]; intros m isin bond_id; simpl; [by left |].
  intros H. destruct (IH _ _ _ H) as [Hm | (cells' & Hin & He)].
  - destruct (add_row_entry _ _ _ _ Hm) as [? | He]; [by left |].
    right. exists cells. split; [by constructor | done].
  - right. exists cells'. split; [by constructor | done].
Qed.

Lemma fold_add_row_other (rows : list (list Directory.cell)) :
  forall (m : gmap string string) (isin : string),
    (forall cells b, cells ∈ rows -> ~ row_entry cells isin b) ->
    fold_left Directory.add_row rows m !! isin = m !! isin.
Proof.
  induction rows as [|cells rows IH]; intros m isin Hno; simpl; [done |].
  rewrite IH by (intros c b Hc; apply Hno; by constructor).
  apply add_row_other. intros b. apply Hno. by constructor.
Qed.

(** X8.  Every entry of the table built from the page comes from a row of
    the page: the ISIN is the stripped text of the first cell of the row,
    and the bond id is a non-empty run of digits found after [bondID=] in
    the link of a cell of that row.  A page that cannot be read or has no
    table gives no entry. *)
Theorem directory_table_entries (p : Directory.page) (isin bond_id : string) :
  Directory.mapping_of_page p !! isin = Some bond_id ->
  exists rows cells c href pre rest,
    p = Directory.PageTable rows /\ cells ∈ rows /\
    row_entry cells isin bond_id /\
    c ∈ cells /\ Directory.cell_link c = Some (Some href) /\
    href = pre +:+ "bondID=" +:+ bond_id +:+ rest /\
    bond_id ≠ EmptyString /\ all_digits bond_id = true.
Proof.
  destruct p as [| |rows]; simpl; [by rewrite lookup_empty.. |].
  unfold Directory.isin_bond_map_of_rows. intros H.
  destruct (fold_add_row_entry _ _ _ _ H) as [H0 | (cells & Hin & He)];
    [by rewrite lookup_empty in H0 |].
  pose proof He as (first & others & -> & _ & Hb).
  destruct (first_bond_id_sound _ _ Hb) as (c & href & Hc & Hl & Hs).
  destruct (search_bond_id_sound _ _ Hs) as (pre & rest & Hh & Hne & Hd & _).
  by exists rows, (first :: others), c, href, pre, rest.
Qed.

Lemma directory_table_entries_witness :
  exists rows cells c href pre rest,
    Directory.PageTable
      [[{| Directory.cell_text := " IT0001 "; Directory.cell_link := None |};
        {| Directory.cell_text := "detail";
           Directory.cell_link := Some (Some "bond.php?bondID=42&x=1") |}]]
    = Directory.PageTable rows /\ cells ∈ rows /\
    row_entry cells "IT0001" "42" /\
    c ∈ cells /\ Directory.cell_link c = Some (Some href) /\
    href = pre +:+ "bondID=" +:+ "42" +:+ rest /\
    "42" ≠ EmptyString /\ all_digits "42" = true.
Proof.
  apply (directory_table_entries
           (Directory.PageTable
              [[{| Directory.cell_text := " IT0001 "; Directory.cell_link := None |};
                {| Directory.cell_text := "detail";
                   Directory.cell_link := Some (Some "bond.php?bondID=42&x=1") |}]])
           "IT0001" "42").
  reflexivity.
Defined.

(** X9.  For each ISIN the table holds the bond id of the last row of the
    page that gives it one: a row that gives an entry for the ISIN, followed
    only by rows that give none for it, decides the entry. *)
Theorem directory_table_last_row_wins (before after : list (list Directory.cell))
    (cells : list Directory.cell) (isin bond_id : string) :
  row_entry cells isin bond_id ->
  (forall later b, later ∈ after -> ~ row_entry later isin b) ->
  Directory.isin_bond_map_of_rows (before ++ cells :: after) !! isin = Some bond_id.
Proof.
  intros He Hafter. unfold Directory.isin_bond_map_of_rows.
  rewrite fold_left_app. simpl.
  rewrite fold_add_row_other by done. by apply add_row_this.
Qed.

Lemma directory_table_last_row_wins_witness :
  Directory.isin_bond_map_of_rows
    ([[{| Directory.cell_text := "IT0001";
          Directory.cell_link := Some (Some "bond.php?bondID=7") |}]]
     ++ [{| Directory.cell_text := "IT0001";
            Directory.cell_link := Some (Some "bond.php?bondID=42") |}]
     :: [[{| Directory.cell_text := "IT0001"; Directory.cell_link := Some None |}]])
    !! "IT0001" = Some "42".
Proof.
  apply directory_table_last_row_wins.
  - eexists _, _. split; [reflexivity |]. split; reflexivity.
  - intros later b Hin (first & rest & -> & _ & Hb).
    apply list_elem_of_singleton in Hin. injection Hin as -> ->.
    discriminate Hb.
Defined.

(** ** step3_enrich_with_issue_prices, further *)

Lemma fetch_loop_result (py_float : string -> option num) (remote : site)
    (fuel : nat) (bond_id : string) (backoff : Z) (w : world)
    (res : outcome (option num)) (w' : world) :
  fetch_loop py_float remote fuel bond_id backoff w = Some (res, w') ->
  exists k p, res = Return p /\
    requests w' = requests w ++ replicate (S k) bond_id /\
    directory_requests w' = directory_requests w.
Proof.
  intros Hrun.
  destruct (fetch_loop_replies _ _ _ _ _ _ _ _ Hrun) as (k & Hk & Hthr & Hcalm).
  destruct (fetch_loop_throttled py_float remote k fuel bond_id backoff w
              Hthr Hcalm Hk) as (w'' & Hrun' & _ & Hr & Hd).
  rewrite Hrun in Hrun'. injection Hrun' as -> <-. eauto.
Qed.

Lemma bond_id_of_in_table (isin_bond_map : gmap string string) (isin : value)
    (bond_id : string) :
  bond_id_of isin_bond_map isin = Some bond_id ->
  exists s, isin = VStr s /\ s ≠ EmptyString /\ isin_bond_map !! s = Some bond_id.
Proof.
  unfold bond_id_of. destruct (truthy isin) eqn:Ht; [|done].
  destruct isin as [| | |s]; try done. intros H. exists s.
  split; [done |]. split; [|done].
  intros ->. done.
Qed.

Section EnrichmentFrame.

Variable py_float : string -> option num.
Variable remote : site.
Variable fuel : nat.
Variable isin_column : string.
Variable isin_bond_map : gmap string string.

(** The three ways through the body of the loop. *)
Lemma enrich_record_cases (r : record) (c : stats) (w : world)
    (res : outcome (record * stats)) (w' : world) :
  enrich_record py_float remote fuel isin_column isin_bond_map r c w
    = Some (res, w') ->
  (has_issue_price r = true /\ res = Return (r, count_found c) /\ w' = w) \/
  (has_issue_price r = false /\
   exists bond_id p,
     bond_id_of isin_bond_map (default VNone (PyDict.get r isin_column))
       = Some bond_id /\
     step3_get_issue_price py_float remote fuel bond_id w = Some (Return p, w') /\
     exists c',
       res = Return (PyDict.set (PyDict.set r "bondid" (VStr bond_id)) "issueprice"
                       (if price_truthy p then price_value p else VNone), c')) \/
  (has_issue_price r = false /\
   bond_id_of isin_bond_map (default VNone (PyDict.get r isin_column)) = None /\
   res = Return (PyDict.set (PyDict.set r "bondid" VNone) "issueprice" VNone, c) /\
   w' = w).
Proof.
  unfold enrich_record. destruct (has_issue_price r).
  - unfold ret. intros [= <- <-]. by left.
  - destruct (bond_id_of isin_bond_map (default VNone (PyDict.get r isin_column)))
      as [bond_id|] eqn:Hb.
    + unfold and_then.
      destruct (step3_get_issue_price py_float remote fuel bond_id w)
        as [[fetched w1]|] eqn:Hrun; [|done].
      destruct (fetch_loop_result _ _ _ _ _ _ _ _ Hrun) as (k & p & -> & _).
      intros H. right. left. split; [done |]. exists bond_id, p.
      split; [done |].
      destruct (price_truthy p); unfold ret in H; injection H as <- <-;
        (split; [done | by eexists]).
    + unfold ret. intros [= <- <-]. right. by right.
Qed.

Lemma enrich_loop_cases (P : record -> record -> Prop) (Q : world -> world -> Prop) :
  (forall w, Q w w) ->
  (forall w1 w2 w3, Q w1 w2 -> Q w2 w3 -> Q w1 w3) ->
  (forall r c w r' c' w',
     enrich_record py_float remote fuel isin_column isin_bond_map r c w
       = Some (Return (r', c'), w') -> P r r' /\ Q w w') ->
  forall (json_data : list record) (c : stats) (w : world)
         (res : outcome (list record * stats)) (w' : world),
    enrich_loop py_float remote fuel isin_column isin_bond_map json_data c w
      = Some (res, w') ->
    exists out c', res = Return (out, c') /\ Forall2 P json_data out /\ Q w w'.
Proof.
  intros Qrefl Qtrans Hbody.
  induction json_data as [|r rest IH]; intros c w res w'; simpl.
  - unfold ret. intros [= <- <-]. exists [], c. by repeat split.
  - unfold and_then at 1.
    destruct (enrich_record py_float remote fuel isin_column isin_bond_map r c w)
      as [[res1 w1]|] eqn:Hrec; [|done].
    assert (Hret : exists r1 c1, res1 = Return (r1, c1)).
    { destruct (enrich_record_cases _ _ _ _ _ Hrec)
        as [(_ & -> & _) | [(_ & b & p & _ & _ & c1 & ->) | (_ & _ & -> & _)]];
        eauto. }
    destruct Hret as (r1 & c1 & ->).
    destruct (Hbody _ _ _ _ _ _ Hrec) as [HP HQ].
    unfold and_then at 1. simpl.
    destruct (enrich_loop py_float remote fuel isin_column isin_bond_map rest c1 w1)
      as [[res2 w2]|] eqn:Hrest; [|done].
    destruct (IH _ _ _ _ Hrest) as (out & c2 & -> & HF & HQ').
    unfold ret. simpl. intros [= <- <-].
    exists (r1 :: out), c2. split; [done |]. split; [by constructor |].
    by eapply Qtrans.
Qed.

End EnrichmentFrame.

(** The enrichment either returns its worklist as it is, without a report
    and without a request, or runs the loop over it. *)
Lemma step3_enrich_paths (py_float : string -> option num) (remote : site)
    (fuel : nat) (json_data : list record) (isin_bond_map : gmap string string)
    (w : world) (res : outcome (list record * option stats)) (w' : world) :
  step3_enrich_with_issue_prices py_float remote fuel json_data isin_bond_map w
    = Some (res, w') ->
  (res = Return (json_data, None) /\ w' = w) \/
  (exists sample rest isin_column looped,
     json_data = sample :: rest /\ isin_bond_map ≠ ∅ /\
     find_isin_column sample = Some isin_column /\
     enrich_loop py_float remote fuel isin_column isin_bond_map json_data
       (no_counts (length json_data)) w = Some (looped, w') /\
     res = bind looped (fun oc => Return (fst oc, Some (snd oc)))).
Proof.
  unfold step3_enrich_with_issue_prices.
  destruct json_data as [|sample rest]; [unfold ret; intros [= <- <-]; by left |].
  destruct (decide (isin_bond_map = ∅)); [unfold ret; intros [= <- <-]; by left |].
  destruct (find_isin_column sample) as [isin_column|] eqn:Hcol;
    [|unfold ret; intros [= <- <-]; by left].
  unfold and_then.
  destruct (enrich_loop py_float remote fuel isin_column isin_bond_map
              (sample :: rest) (no_counts (length (sample :: rest))) w)
    as [[looped w1]|] eqn:Hloop; [|done].
  intros H. right. exists sample, rest, isin_column, looped.
  repeat (split; [done |]).
  destruct looped as [[out c]|e]; unfold ret in H; injection H as <- <-; done.
Qed.

(** X10.  Whatever the enrichment does, it returns one record for each
    record of the worklist, in the same order; it changes no field other
    than [bondid] and [issueprice]; and a record that already has a
    non-null [issueprice] is returned exactly as it was. *)
Theorem enrichment_frame (py_float : string -> option num) (remote : site)
    (fuel : nat) (json_data : list record) (isin_bond_map : gmap string string)
    (w : world) (out : list record) (report : option stats) (w' : world) :
  step3_enrich_with_issue_prices py_float remote fuel json_data isin_bond_map w
    = Some (Return (out, report), w') ->
  Forall2
    (fun r r' =>
       (forall g, g ∉ static_fields -> PyDict.get r' g = PyDict.get r g) /\
       (has_issue_price r = true -> r' = r))
    json_data out.
Proof.
  intros Hrun.
  destruct (step3_enrich_paths _ _ _ _ _ _ _ _ Hrun)
    as [[[= -> ->] _] | (sample & rest & col & looped & _ & _ & _ & Hloop & Hres)].
  - apply Forall2_same_length_lookup. split; [done |].
    intros i x y Hx Hy. rewrite Hx in Hy. injection Hy as <-. done.
  - assert (Hbody : forall r c w0 r' c' w0',
              enrich_record py_float remote fuel col isin_bond_map r c w0
                = Some (Return (r', c'), w0') ->
              ((forall g, g ∉ static_fields -> PyDict.get r' g = PyDict.get r g) /\
               (has_issue_price r = true -> r' = r)) /\ True).
    { intros r c w0 r' c' w0' Hrec. split; [|done].
      destruct (enrich_record_cases _ _ _ _ _ _ _ _ _ _ Hrec)
        as [(Hp & [= -> _] & _)
           | [(Hp & b & p & _ & _ & c1 & [= -> _]) | (Hp & _ & [= -> _] & _)]].
      - done.
      - split; [|congruence]. intros g Hg. unfold static_fields in Hg.
        apply not_elem_of_cons in Hg as [Hb Hg].
        apply not_elem_of_cons in Hg as [Hi _].
        by rewrite !get_set_ne.
      - split; [|congruence]. intros g Hg. unfold static_fields in Hg.
        apply not_elem_of_cons in Hg as [Hb Hg].
        apply not_elem_of_cons in Hg as [Hi _].
        by rewrite !get_set_ne. }
    destruct (enrich_loop_cases py_float remote fuel col isin_bond_map _
                (fun _ _ => True) (fun _ => I) (fun _ _ _ _ _ => I) Hbody
                _ _ _ _ _ Hloop) as (out' & c' & -> & HF & _).
    simpl in Hres. by injection Hres as -> _.
Qed.

Lemma enrichment_frame_witness :
  Forall2
    (fun r r' =>
       (forall g, g ∉ static_fields -> PyDict.get r' g = PyDict.get r g) /\
       (has_issue_price r = true -> r' = r))
    [[("ISIN", VStr "A"); ("price", VNum (num_of_Z 101))];
     [("ISIN", VStr "C"); ("issueprice", VNum (num_of_Z 100))]]
    [[("ISIN", VStr "A"); ("price", VNum (num_of_Z 101));
      ("bondid", VStr "7"); ("issueprice", VNum (num_frac 9875 100))];
     [("ISIN", VStr "C"); ("issueprice", VNum (num_of_Z 100))]].
Proof.
  apply (enrichment_frame Sample.decimal_float
           (site_of [too_many_requests; RespOk (Some "98,75")] ∅) 2
           [[("ISIN", VStr "A"); ("price", VNum (num_of_Z 101))];
            [("ISIN", VStr "C"); ("issueprice", VNum (num_of_Z 100))]]
           {["A" := "7"]} start_of_run _
           (Some (count_found (count_found (no_counts 2))))
           {| requests := ["7"; "7"]; pauses := [60%Z]; directory_requests := 0 |}).
  reflexivity.
Defined.

Lemma only_table_requests_refl (isin_bond_map : gmap string string) (w : world) :
  only_table_requests isin_bond_map w w.
Proof. split; [done |]. exists []. by rewrite app_nil_r. Qed.

Lemma only_table_requests_trans (isin_bond_map : gmap string string)
    (w1 w2 w3 : world) :
  only_table_requests isin_bond_map w1 w2 ->
  only_table_requests isin_bond_map w2 w3 ->
  only_table_requests isin_bond_map w1 w3.
Proof.
  intros [Hd1 (a1 & Hr1 & Hf1)] [Hd2 (a2 & Hr2 & Hf2)].
  split; [congruence |]. exists (a1 ++ a2).
  split; [by rewrite Hr2, Hr1, app_assoc | by apply Forall_app].
Qed.

Lemma enrich_record_requests (py_float : string -> option num) (remote : site)
    (fuel : nat) (isin_column : string) (isin_bond_map : gmap string string)
    (r : record) (c : stats) (w : world) (res : outcome (record * stats))
    (w' : world) :
  enrich_record py_float remote fuel isin_column isin_bond_map r c w
    = Some (res, w') ->
  only_table_requests isin_bond_map w w'.
Proof.
  intros Hrec.
  destruct (enrich_record_cases _ _ _ _ _ _ _ _ _ _ Hrec)
    as [(_ & _ & ->) | [(_ & b & p & Hb & Hrun & _) | (_ & _ & _ & ->)]];
    try apply only_table_requests_refl.
  destruct (fetch_loop_result _ _ _ _ _ _ _ _ Hrun) as (k & p' & _ & Hr & Hd).
  destruct (bond_id_of_in_table _ _ _ Hb) as (s & _ & Hs & Hlk).
  split; [done |]. exists (replicate (S k) b). split; [done |].
  apply Forall_replicate. eauto.
Qed.

Lemma enrichment_requests_aux (py_float : string -> option num) (remote : site)
    (fuel : nat) (json_data : list record) (isin_bond_map : gmap string string)
    (w : world) (res : outcome (list record * option stats)) (w' : world) :
  step3_enrich_with_issue_prices py_float remote fuel json_data isin_bond_map w
    = Some (res, w') ->
  (exists out report, res = Return (out, report)) /\
  only_table_requests isin_bond_map w w'.
Proof.
  intros Hrun.
  destruct (step3_enrich_paths _ _ _ _ _ _ _ _ Hrun)
    as [[-> ->] | (sample & rest & col & looped & _ & _ & _ & Hloop & ->)].
  - split; [eauto | apply only_table_requests_refl].
  - assert (Hbody : forall r c w0 r' c' w0',
              enrich_record py_float remote fuel col isin_bond_map r c w0
                = Some (Return (r', c'), w0') ->
              True /\ only_table_requests isin_bond_map w0 w0').
    { intros r c w0 r' c' w0' Hrec. split; [done |].
      by eapply enrich_record_requests. }
    destruct (enrich_loop_cases py_float remote fuel col isin_bond_map
                (fun _ _ => True) (only_table_requests isin_bond_map)
                (only_table_requests_refl isin_bond_map)
                (only_table_requests_trans isin_bond_map) Hbody
                _ _ _ _ _ Hloop) as (out & c & -> & _ & HQ).
    split; [simpl; eauto | done].
Qed.

(** X11.  An enrichment that ends never ends with an exception; it does not
    ask for the directory page; and every detail request it sends is for a
    bond id that the mapping holds for a non-empty ISIN. *)
Theorem enrichment_requests (py_float : string -> option num) (remote : site)
    (fuel : nat) (json_data : list record) (isin_bond_map : gmap string string)
    (w : world) (res : outcome (list record * option stats)) (w' : world) :
  step3_enrich_with_issue_prices py_float remote fuel json_data isin_bond_map w
    = Some (res, w') ->
  (exists out report, res = Return (out, report)) /\
  only_table_requests isin_bond_map w w'.
Proof. apply enrichment_requests_aux. Qed.

Lemma enrichment_requests_witness :
  (exists out report,
     Return
       ([[("ISIN", VStr "A"); ("bondid", VStr "7"); ("issueprice", VNone)];
         [("ISIN", VStr "B"); ("bondid", VNone); ("issueprice", VNone)]],
        Some (count_not_found (no_counts 2)))
     = Return (out, report)) /\
  only_table_requests {["A" := "7"]} start_of_run
    {| requests := ["7"; "7"]; pauses := [60%Z]; directory_requests := 0 |}.
Proof.
  apply (enrichment_requests Sample.decimal_float
           (site_of [too_many_requests; RespHTTPError (Some 404%Z)] ∅) 2
           [[("ISIN", VStr "A")]; [("ISIN", VStr "B")]]
           {["A" := "7"]} start_of_run).
  reflexivity.
Defined.

(** X12.  When the enrichment prints its report, every record that had no
    non-null [issueprice] comes out with both static fields present:
    [bondid] is the bond id the mapping holds for the identifier of the
    record, or null when the identifier is not a non-empty string of the
    mapping; [issueprice] is null or a number that is not zero, and null
    whenever [bondid] is. *)
Theorem enrichment_fills_static_fields (py_float : string -> option num)
    (remote : site) (fuel : nat) (json_data : list record)
    (isin_bond_map : gmap string string) (w : world) (out : list record)
    (report : stats) (w' : world) :
  step3_enrich_with_issue_prices py_float remote fuel json_data isin_bond_map w
    = Some (Return (out, Some report), w') ->
  exists sample rest isin_column,
    json_data = sample :: rest /\
    find_isin_column sample = Some isin_column /\
    Forall2
      (fun r r' =>
         has_issue_price r = false ->
         PyDict.get r' "bondid"
           = Some (bond_id_value
                     (bond_id_of isin_bond_map
                        (default VNone (PyDict.get r isin_column)))) /\
         exists v, PyDict.get r' "issueprice" = Some v /\
                   null_or_nonzero v /\
                   (PyDict.get r' "bondid" = Some VNone -> v = VNone))
      json_data out.
Proof.
  intros Hrun.
  destruct (step3_enrich_paths _ _ _ _ _ _ _ _ Hrun)
    as [[[=] _] | (sample & rest & col & looped & Hj & _ & Hcol & Hloop & Hres)].
  exists sample, rest, col. split; [done |]. split; [done |].
  assert (Hbody : forall r c w0 r' c' w0',
            enrich_record py_float remote fuel col isin_bond_map r c w0
              = Some (Return (r', c'), w0') ->
            (has_issue_price r = false ->
             PyDict.get r' "bondid"
               = Some (bond_id_value
                         (bond_id_of isin_bond_map
                            (default VNone (PyDict.get r col)))) /\
             exists v, PyDict.get r' "issueprice" = Some v /\
                       null_or_nonzero v /\
                       (PyDict.get r' "bondid" = Some VNone -> v = VNone)) /\ True).
  { intros r c w0 r' c' w0' Hrec. split; [|done]. intros Hp.
    destruct (enrich_record_cases _ _ _ _ _ _ _ _ _ _ Hrec)
      as [(Hp' & _) | [(_ & b & p & Hb & _ & c1 & [= -> _])
                      | (_ & Hb & [= -> _] & _)]]; [congruence | |].
    - rewrite Hb. rewrite get_set_ne, get_set_eq by done. split; [done |].
      eexists. split; [apply get_set_eq |]. split; [|by intros [=]].
      destruct p as [x|]; simpl; [|by left].
      destruct (num_truthy x) eqn:Hx; [right; eauto | by left].
    - rewrite Hb. rewrite get_set_ne, get_set_eq by done. split; [done |].
      exists VNone. split; [apply get_set_eq |]. split; [by left | done]. }
  destruct (enrich_loop_cases py_float remote fuel col isin_bond_map _
              (fun _ _ => True) (fun _ => I) (fun _ _ _ _ _ => I) Hbody
              _ _ _ _ _ Hloop) as (out' & c' & -> & HF & _).
  simpl in Hres. by injection Hres as -> _.
Qed.

Lemma enrichment_fills_static_fields_witness :
  exists sample rest isin_column,
    [[("ISIN", VStr "A")]; [("ISIN", VStr "B")]] = sample :: rest /\
    find_isin_column sample = Some isin_column /\
    Forall2
      (fun r r' =>
         has_issue_price r = false ->
         PyDict.get r' "bondid"
           = Some (bond_id_value
                     (bond_id_of {["A" := "7"]}
                        (default VNone (PyDict.get r isin_column)))) /\
         exists v, PyDict.get r' "issueprice" = Some v /\
                   null_or_nonzero v /\
                   (PyDict.get r' "bondid" = Some VNone -> v = VNone))
      [[("ISIN", VStr "A")]; [("ISIN", VStr "B")]]
      [[("ISIN", VStr "A"); ("bondid", VStr "7"); ("issueprice", VNone)];
       [("ISIN", VStr "B"); ("bondid", VNone); ("issueprice", VNone)]].
Proof.
  apply (enrichment_fills_static_fields Sample.decimal_float
           (site_of [too_many_requests; RespHTTPError (Some 404%Z)] ∅) 2
           [[("ISIN", VStr "A")]; [("ISIN", VStr "B")]]
           {["A" := "7"]} start_of_run _ (count_not_found (no_counts 2))
           {| requests := ["7"; "7"]; pauses := [60%Z]; directory_requests := 0 |}).
  reflexivity.
Defined.

(** ** main, further *)

Lemma isin_to_process_key_error (isin_column : string) (json_data : list record) :
  Exists (fun r => needs_enrichment r = true /\ PyDict.get r isin_column = None)
    json_data ->
  isin_to_process isin_column json_data = Raise (KeyError isin_column).
Proof.
  induction json_data as [|r rest IH]; intros H.
  - by apply Exists_nil in H.
  - simpl. apply Exists_cons in H as [[Hn Hk] | H].
    + rewrite Hn. unfold PyDict.getitem. by rewrite Hk.
    + rewrite (IH H). destruct (needs_enrichment r); [|done].
      unfold PyDict.getitem. by destruct (PyDict.get r isin_column).
Qed.

(** X13.  When a record that needs enrichment has no identifier column,
    planning raises [KeyError] for that column before anything is requested
    from the site: the state of the run is untouched. *)
Theorem plan_key_error_before_requests (py_float : string -> option num)
    (remote : site) (fuel : nat) (isin_column : string)
    (json_data : list record) (w : world) :
  Exists (fun r => needs_enrichment r = true /\ PyDict.get r isin_column = None)
    json_data ->
  plan_and_enrich py_float remote fuel isin_column json_data w
    = Some (Raise (KeyError isin_column), w).
Proof.
  intros H. unfold plan_and_enrich, and_then, lift.
  by rewrite isin_to_process_key_error.
Qed.

Lemma plan_key_error_before_requests_witness :
  plan_and_enrich Sample.decimal_float (site_of [] {["A" := "7"]}) 1 "ISIN"
    [[("ISIN", VStr "A"); ("bondid", VStr "7");
      ("issueprice", VNum (num_of_Z 100))];
     [("price", VNum (num_of_Z 50))]] start_of_run
  = Some (Raise (KeyError "ISIN"), start_of_run).
Proof.
  apply plan_key_error_before_requests.
  apply Exists_cons. right. apply Exists_cons. left. by split.
Defined.

Lemma isin_to_process_empty (isin_column : string) (json_data : list record)
    (to_process : gset value) :
  isin_to_process isin_column json_data = Return to_process ->
  (to_process = ∅ <-> any_needs_enrichment json_data = false).
Proof.
  unfold any_needs_enrichment. revert to_process.
  induction json_data as [|r rest IH]; intros to_process; simpl.
  - by intros [= <-].
  - destruct (needs_enrichment r); simpl; [|apply IH].
    unfold PyDict.getitem. destruct (PyDict.get r isin_column) as [k|]; [|done].
    simpl. destruct (isin_to_process isin_column rest) as [s|]; [|done].
    simpl. intros [= <-]. split; [|done].
    intros H. exfalso. apply (not_elem_of_empty (C:=gset value) (py_key k)).
    rewrite <- H. apply elem_of_union. left. by apply elem_of_singleton.
Qed.

Lemma records_to_process_empty (json_data : list record) :
  records_to_process json_data = [] <-> any_needs_enrichment json_data = false.
Proof.
  unfold records_to_process, any_needs_enrichment.
  induction json_data as [|r rest IH]; simpl; [done |].
  destruct (needs_enrichment r); simpl; [split; done | exact IH].
Qed.

(** X14.  In a run of the planning and enrichment that ends with a list,
    the directory page is read once if some record needs enrichment and not
    at all otherwise, and every detail request is for a bond id that the
    table of that page holds for a non-empty ISIN. *)
Theorem plan_reads_directory_once (py_float : string -> option num)
    (remote : site) (fuel : nat) (isin_column : string)
    (json_data out : list record) (w w' : world) :
  plan_and_enrich py_float remote fuel isin_column json_data w
    = Some (Return out, w') ->
  directory_requests w'
    = directory_requests w + (if any_needs_enrichment json_data then 1 else 0) /\
  exists asked,
    requests w' = requests w ++ asked /\
    Forall (fun bond_id =>
              exists isin, isin ≠ EmptyString /\
                           directory remote !! isin = Some bond_id) asked.
Proof.
  unfold plan_and_enrich, and_then at 1, lift at 1.
  destruct (isin_to_process isin_column json_data) as [to_process|e] eqn:Hset;
    [|done].
  pose proof (isin_to_process_empty _ _ _ Hset) as Hempty.
  pose proof (records_to_process_empty json_data) as Hlist.
  destruct (any_needs_enrichment json_data) eqn:Hany.
  - assert (Hne : to_process ≠ ∅) by (intros H; apply Hempty in H; done).
    unfold and_then at 1. rewrite decide_False by done.
    unfold step2_fetch_isin_bondid_mapping.
    destruct (records_to_process json_data) as [|r0 subset] eqn:Hsub.
    { destruct Hlist as [Hl _]. by specialize (Hl eq_refl). }
    unfold and_then at 1.
    destruct (step3_enrich_with_issue_prices py_float remote fuel (r0 :: subset)
                (directory remote) (asked_directory w)) as [[res1 w1]|] eqn:Hen;
      [|done].
    destruct (enrichment_requests_aux py_float remote fuel _ _ _ _ _ Hen)
      as [(o & rep & ->) [Hd (asked & Hr & Hf)]].
    unfold and_then, lift. simpl fst.
    destruct (index_by isin_column o ∅) as [m|e]; [|done].
    destruct (for_each (update_from isin_column m) (written_back json_data o));
      [|done].
    intros [= _ <-]. split; [rewrite Hd; simpl; lia |].
    exists asked. by split.
  - assert (He : to_process = ∅) by (by apply Hempty).
    unfold and_then at 1. rewrite decide_True by done. unfold ret at 1.
    destruct Hlist as [_ Hl]. rewrite (Hl eq_refl).
    unfold ret. intros [= _ <-]. split; [lia |].
    exists []. by rewrite app_nil_r.
Qed.

Lemma plan_reads_directory_once_witness :
  directory_requests
    {| requests := ["7"]; pauses := []; directory_requests := 1 |}
    = directory_requests start_of_run
      + (if any_needs_enrichment
              [[("ISIN", VStr "A"); ("price", VNum (num_of_Z 101))];
               [("ISIN", VStr "C"); ("bondid", VStr "3");
                ("issueprice", VNum (num_of_Z 100))]]
         then 1 else 0) /\
  exists asked,
    requests {| requests := ["7"]; pauses := []; directory_requests := 1 |}
      = requests start_of_run ++ asked /\
    Forall (fun bond_id =>
              exists isin, isin ≠ EmptyString /\
                directory (site_of [RespOk (Some "98,75")] {["A" := "7"]}) !! isin
                  = Some bond_id) asked.
Proof.
  apply (plan_reads_directory_once Sample.decimal_float
           (site_of [RespOk (Some "98,75")] {["A" := "7"]}) 1 "ISIN"
           [[("ISIN", VStr "A"); ("price", VNum (num_of_Z 101))];
            [("ISIN", VStr "C"); ("bondid", VStr "3");
             ("issueprice", VNum (num_of_Z 100))]]
           [[("ISIN", VStr "A"); ("price", VNum (num_of_Z 101));
             ("bondid", VStr "7"); ("issueprice", VNum (num_frac 9875 100))];
            [("ISIN", VStr "C"); ("bondid", VStr "3");
             ("issueprice", VNum (num_of_Z 100))]]
           start_of_run).
  reflexivity.
Defined.

Lemma written_back_same (json_data : list record) :
  written_back json_data (records_to_process json_data) = json_data.
Proof.
  unfold records_to_process.
  induction json_data as [|r rest IH]; simpl; [done |].
  destruct (needs_enrichment r) eqn:E; simpl; rewrite ?E; by rewrite IH.
Qed.

Lemma enrich_loop_all_priced (py_float : string -> option num) (remote : site)
    (fuel : nat) (isin_column : string) (isin_bond_map : gmap string string)
    (json_data : list record) :
  Forall (fun r => has_issue_price r = true) json_data ->
  forall (c : stats) (w : world),
    exists c', enrich_loop py_float remote fuel isin_column isin_bond_map
                 json_data c w = Some (Return (json_data, c'), w).
Proof.
  induction json_data as [|r rest IH]; intros H c w; simpl.
  - unfold ret. eauto.
  - apply Forall_cons in H as [Hr Hrest].
    unfold and_then at 1, enrich_record. rewrite Hr. unfold ret at 1.
    destruct (IH Hrest (count_found c) w) as [c' Hloop].
    unfold and_then. simpl. rewrite Hloop. unfold ret. simpl. eauto.
Qed.

Lemma step3_enrich_without_progress (py_float : string -> option num)
    (remote : site) (fuel : nat) (json_data : list record)
    (isin_bond_map : gmap string string) (w : world) :
  isin_bond_map = ∅ \/ Forall (fun r => has_issue_price r = true) json_data ->
  exists report,
    step3_enrich_with_issue_prices py_float remote fuel json_data isin_bond_map w
    = Some (Return (json_data, report), w).
Proof.
  intros H. unfold step3_enrich_with_issue_prices.
  destruct json_data as [|sample rest]; [unfold ret; eauto |].
  destruct (decide (isin_bond_map = ∅)) as [|Hne]; [unfold ret; eauto |].
  destruct H as [H | H]; [done |].
  destruct (find_isin_column sample) as [col|]; [|unfold ret; eauto].
  destruct (enrich_loop_all_priced py_float remote fuel col isin_bond_map
              (sample :: rest) H (no_counts (length (sample :: rest))) w)
    as [c' Hloop].
  unfold and_then. rewrite Hloop. unfold ret. simpl. eauto.
Qed.

Lemma update_from_same (isin_column : string) (json_data subset : list record)
    (m : gmap value record) :
  catalog isin_column json_data ->
  Forall well_formed json_data ->
  (forall r, r ∈ subset -> r ∈ json_data) ->
  index_by isin_column subset ∅ = Return m ->
  for_each (update_from isin_column m) json_data = Return json_data.
Proof.
  intros [Hkeyed Hnd] Hwf Hsub Hm.
  pose proof (index_by_return_keyed _ _ _ _ Hm) as Hk.
  destruct (index_by_keyed isin_column subset ∅ Hk) as (m' & Hm' & _ & Hin).
  rewrite Hm in Hm'. injection Hm' as <-.
  apply for_each_same. intros r Hr.
  unfold keyed in Hkeyed. rewrite Forall_forall in Hkeyed.
  destruct (Hkeyed r Hr) as [v Hv].
  unfold update_from, PyDict.getitem. rewrite Hv. simpl.
  destruct (m !! py_key v) as [e|] eqn:Hlk; [|done].
  destruct (Hin _ _ Hlk) as [H0 | [He Hke]]; [by rewrite lookup_empty in H0 |].
  assert (e = r) as ->.
  { apply (catalog_key_unique isin_column json_data e r (py_key v));
      [done | by apply Hsub | done | done |].
    unfold key_of. by rewrite Hv. }
  rewrite update_self; [done |].
  rewrite Forall_forall in Hwf. by apply Hwf.
Qed.

(** X15.  A run that cannot enrich anything leaves the catalog as it is.
    When the directory page gives no table, or when every record already
    has a non-null [issueprice] (some may still lack a [bondid]), the
    planning and enrichment of a catalog of well-formed records return the
    catalog unchanged and send no detail request; the directory page is
    still read if some record needs enrichment. *)
Theorem plan_without_progress (py_float : string -> option num) (remote : site)
    (fuel : nat) (isin_column : string) (json_data : list record) (w : world) :
  catalog isin_column json_data ->
  Forall well_formed json_data ->
  directory remote = ∅ \/ Forall (fun r => has_issue_price r = true) json_data ->
  plan_and_enrich py_float remote fuel isin_column json_data w
    = Some (Return json_data,
            if any_needs_enrichment json_data then asked_directory w else w).
Proof.
  intros Hcat Hwf Hstuck.
  destruct (isin_to_process_spec isin_column json_data (proj1 Hcat))
    as (to_process & Hset & _).
  pose proof (isin_to_process_empty _ _ _ Hset) as Hempty.
  pose proof (records_to_process_empty json_data) as Hlist.
  unfold plan_and_enrich, and_then at 1, lift at 1. rewrite Hset.
  destruct (any_needs_enrichment json_data) eqn:Hany.
  - assert (Hne : to_process ≠ ∅) by (intros H; apply Hempty in H; done).
    unfold and_then at 1. rewrite decide_False by done.
    unfold step2_fetch_isin_bondid_mapping.
    destruct (records_to_process json_data) as [|r0 subset] eqn:Hsub.
    { destruct Hlist as [Hl _]. by specialize (Hl eq_refl). }
    assert (Hin : forall r, r ∈ r0 :: subset -> r ∈ json_data).
    { intros r Hr. rewrite <- Hsub in Hr. unfold records_to_process in Hr.
      apply list_elem_of_In, List.filter_In in Hr as [Hr _].
      by apply list_elem_of_In. }
    destruct (step3_enrich_without_progress py_float remote fuel (r0 :: subset)
                (directory remote) (asked_directory w)) as [report Hen].
    { destruct Hstuck as [? | Hp]; [by left | right].
      apply Forall_forall. intros r Hr.
      rewrite Forall_forall in Hp. apply Hp. by apply Hin. }
    unfold and_then at 1. rewrite Hen.
    unfold and_then, lift. simpl fst.
    assert (Hk : keyed isin_column (r0 :: subset)).
    { unfold keyed. apply Forall_forall. intros r Hr.
      destruct Hcat as [Hkeyed _]. unfold keyed in Hkeyed.
      rewrite Forall_forall in Hkeyed. apply Hkeyed. by apply Hin. }
    destruct (index_by_keyed isin_column (r0 :: subset) ∅ Hk) as (m & Hm & _).
    rewrite Hm. rewrite <- Hsub at 1. rewrite written_back_same.
    by rewrite (update_from_same isin_column json_data (r0 :: subset) m).
  - assert (He : to_process = ∅) by (by apply Hempty).
    unfold and_then at 1. rewrite decide_True by done. unfold ret at 1.
    destruct Hlist as [_ Hl]. by rewrite (Hl eq_refl).
Qed.

Lemma plan_without_progress_witness :
  plan_and_enrich Sample.decimal_float
    (site_of [RespOk (Some "98,75")] {["A" := "7"]}) 1 "ISIN"
    [[("ISIN", VStr "A"); ("issueprice", VNum (num_of_Z 100))]] start_of_run
  = Some (Return [[("ISIN", VStr "A"); ("issueprice", VNum (num_of_Z 100))]],
          if any_needs_enrichment
               [[("ISIN", VStr "A"); ("issueprice", VNum (num_of_Z 100))]]
          then asked_directory start_of_run else start_of_run).
Proof.
  apply plan_without_progress.
  - split; [repeat constructor; by eexists | apply NoDup_singleton].
  - repeat constructor.
    + intros H. apply list_elem_of_singleton in H. discriminate H.
    + intros H. by apply elem_of_nil in H.
  - right. by repeat constructor.
Defined.

Lemma keys_set (d : record) (k : string) (v : value) :
  PyDict.keys (PyDict.set d k v)
  = if PyDict.has d k then PyDict.keys d else PyDict.keys d ++ [k].
Proof.
  unfold PyDict.has, PyDict.keys.
  induction d as [|[k' v'] d IH]; simpl; [done |].
  destruct (String.eqb k' k) eqn:E; simpl; [done |].
  rewrite IH. by destruct (PyDict.get d k).
Qed.

Lemma get_None_keys (d : record) (k : string) :
  PyDict.get d k = None -> k ∉ PyDict.keys d.
Proof.
  unfold PyDict.keys. induction d as [|[k' v'] d IH]; simpl.
  - intros _ H. by apply elem_of_nil in H.
  - destruct (String.eqb k' k) eqn:E; [done |]. intros H.
    apply not_elem_of_cons. split; [|by apply IH].
    intros ->. by rewrite String.eqb_refl in E.
Qed.

Lemma set_well_formed (d : record) (k : string) (v : value) :
  well_formed d -> well_formed (PyDict.set d k v).
Proof.
  unfold well_formed. intros Hwf. rewrite keys_set. unfold PyDict.has.
  destruct (PyDict.get d k) eqn:E; [done |].
  apply NoDup_app. split; [done |]. split; [|apply NoDup_singleton].
  intros x Hx Hk. apply list_elem_of_singleton in Hk as ->.
  by apply (get_None_keys d k).
Qed.

Lemma keep_static_well_formed (old nr : record) :
  well_formed nr -> well_formed (keep_static old nr).
Proof.
  intros Hwf. unfold keep_static, static_fields. simpl.
  destruct (PyDict.get old "bondid") as [v|];
    destruct (PyDict.get old "issueprice") as [v'|];
    try destruct (is_none v); try destruct (is_none v');
    repeat apply set_well_formed; done.
Qed.

Lemma get_update (e r : record) (k : string) :
  well_formed e ->
  PyDict.get (PyDict.update r e) k
  = match PyDict.get e k with Some v => Some v | None => PyDict.get r k end.
Proof.
  unfold PyDict.update, well_formed, PyDict.keys. revert r.
  induction e as [|[k0 v0] e IH]; intros r Hnd; simpl; [done |].
  apply NoDup_cons in Hnd as [Hfresh Hnd]. rewrite IH by done.
  destruct (String.eqb k0 k) eqn:E.
  - apply String.eqb_eq in E. subst k0.
    destruct (PyDict.get e k) as [v|] eqn:Hg.
    + exfalso. apply Hfresh. clear -Hg.
      induction e as [|[k1 v1] e IH]; simpl in *; [done |].
      destruct (String.eqb k1 k) eqn:E.
      * apply String.eqb_eq in E. subst. by constructor.
      * apply elem_of_cons. right. by apply IH.
    + apply get_set_eq.
  - destruct (PyDict.get e k); [done |].
    apply get_set_ne. intros ->. by rewrite String.eqb_refl in E.
Qed.

Lemma find_isin_column_not_static (sample : record) (isin_column : string) :
  find_isin_column sample = Some isin_column -> isin_column ∉ static_fields.
Proof.
  unfold find_isin_column. intros H. apply List.find_some in H as [_ Hm].
  unfold static_fields. intros Hin.
  apply elem_of_cons in Hin as [-> | Hin]; [done |].
  apply list_elem_of_singleton in Hin as ->. done.
Qed.

(** What holds between each record of the worklist and the record the
    enrichment returns for it, when it holds between a record and itself
    and between a record and the record with both static fields set. *)
Lemma step3_enrich_pointwise (P : record -> record -> Prop)
    (py_float : string -> option num) (remote : site) (fuel : nat)
    (json_data : list record) (isin_bond_map : gmap string string) (w : world)
    (out : list record) (report : option stats) (w' : world) :
  (forall r, P r r) ->
  (forall r b v, P r (PyDict.set (PyDict.set r "bondid" b) "issueprice" v)) ->
  step3_enrich_with_issue_prices py_float remote fuel json_data isin_bond_map w
    = Some (Return (out, report), w') ->
  Forall2 P json_data out.
Proof.
  intros Hrefl Hset Hrun.
  destruct (step3_enrich_paths _ _ _ _ _ _ _ _ Hrun)
    as [[[= -> ->] _] | (sample & rest & col & looped & _ & _ & _ & Hloop & Hres)].
  - apply Forall2_same_length_lookup. split; [done |].
    intros i x y Hx Hy. rewrite Hx in Hy. by injection Hy as <-.
  - assert (Hbody : forall r c w0 r' c' w0',
              enrich_record py_float remote fuel col isin_bond_map r c w0
                = Some (Return (r', c'), w0') -> P r r' /\ True).
    { intros r c w0 r' c' w0' Hrec. split; [|done].
      destruct (enrich_record_cases _ _ _ _ _ _ _ _ _ _ Hrec)
        as [(_ & [= -> _] & _)
           | [(_ & b & p & _ & _ & c1 & [= -> _]) | (_ & _ & [= -> _] & _)]];
        [apply Hrefl | apply Hset | apply Hset]. }
    destruct (enrich_loop_cases py_float remote fuel col isin_bond_map P
                (fun _ _ => True) (fun _ => I) (fun _ _ _ _ _ => I) Hbody
                _ _ _ _ _ Hloop) as (out' & c' & -> & HF & _).
    simpl in Hres. by injection Hres as -> _.
Qed.

Lemma written_back_Forall2 (P : record -> record -> Prop)
    (json_data : list record) :
  (forall r, P r r) ->
  forall enriched,
    Forall2 P (records_to_process json_data) enriched ->
    Forall2 P json_data (written_back json_data enriched).
Proof.
  intros Hrefl. unfold records_to_process.
  induction json_data as [|r rest IH]; intros enriched HF; simpl; [constructor |].
  simpl in HF. destruct (needs_enrichment r).
  - inversion HF as [|? e ? enriched' Hre Hrest]; subst.
    constructor; [done | by apply IH].
  - constructor; [apply Hrefl | by apply IH].
Qed.

(** The identifier column and the well-formedness of the records through
    the planning and enrichment. *)
Lemma plan_and_enrich_keys (py_float : string -> option num) (remote : site)
    (fuel : nat) (isin_column : string) (json_data out : list record)
    (w w' : world) :
  isin_column ∉ static_fields ->
  Forall well_formed json_data ->
  plan_and_enrich py_float remote fuel isin_column json_data w
    = Some (Return out, w') ->
  key_of isin_column <$> out = key_of isin_column <$> json_data.
Proof.
  intros Hcol Hwf. unfold plan_and_enrich, and_then at 1, lift at 1.
  destruct (isin_to_process isin_column json_data) as [to_process|e]; [|done].
  unfold and_then at 1.
  destruct ((if decide (to_process = ∅) then ret ∅
             else step2_fetch_isin_bondid_mapping remote) w)
    as [[[isin_bond_map|e] w0]|]; [|done..].
  destruct (records_to_process json_data) as [|r0 subset] eqn:Hsub.
  { unfold ret. by intros [= <- _]. }
  unfold and_then at 1.
  destruct (step3_enrich_with_issue_prices py_float remote fuel (r0 :: subset)
              isin_bond_map w0) as [[[[o rep]|e] w1]|] eqn:Hen; [|done..].
  unfold and_then, lift. simpl fst.
  destruct (index_by isin_column o ∅) as [m|e] eqn:Hm; [|done].
  destruct (for_each (update_from isin_column m) (written_back json_data o))
    as [out'|e] eqn:Hupd; [|done].
  intros [= <- _].
  set (P := fun r r' : record =>
              PyDict.get r' isin_column = PyDict.get r isin_column /\
              (well_formed r -> well_formed r')).
  assert (Hrefl : forall r, P r r) by (by intros r).
  assert (Hset : forall r b v,
             P r (PyDict.set (PyDict.set r "bondid" b) "issueprice" v)).
  { intros r b v. split.
    - unfold static_fields in Hcol.
      apply not_elem_of_cons in Hcol as [Hb Hc].
      apply not_elem_of_cons in Hc as [Hi _].
      by rewrite !get_set_ne.
    - intros H. by repeat apply set_well_formed. }
  pose proof (step3_enrich_pointwise P _ _ _ _ _ _ _ _ _ Hrefl Hset Hen) as HF.
  rewrite <- Hsub in HF.
  pose proof (written_back_Forall2 P json_data Hrefl o HF) as HW.
  assert (Ho : Forall well_formed o).
  { apply Forall_forall. intros e He.
    apply list_elem_of_lookup in He as [i Hi].
    destruct (Forall2_lookup_r _ _ _ _ _ HF Hi) as (r & Hr & _ & Hwfr).
    apply Hwfr. rewrite Forall_forall in Hwf. apply Hwf.
    apply list_elem_of_lookup_2 in Hr. unfold records_to_process in Hr.
    apply list_elem_of_In, List.filter_In in Hr as [Hr _].
    by apply list_elem_of_In. }
  pose proof (index_by_return_keyed _ _ _ _ Hm) as Hk.
  destruct (index_by_keyed isin_column o ∅ Hk) as (m' & Hm' & _ & Hin).
  rewrite Hm in Hm'. injection Hm' as <-.
  transitivity (key_of isin_column <$> written_back json_data o).
  - apply (for_each_fmap (update_from isin_column m)); [|done].
    intros x y _ Hxy. unfold update_from, PyDict.getitem in Hxy.
    destruct (PyDict.get x isin_column) as [v|] eqn:Hv; [|done]. simpl in Hxy.
    destruct (m !! py_key v) as [e|] eqn:Hlk; [|by injection Hxy as <-].
    injection Hxy as <-.
    destruct (Hin _ _ Hlk) as [H0 | [He Hke]]; [by rewrite lookup_empty in H0 |].
    unfold key_of in *. rewrite get_update
      by (rewrite Forall_forall in Ho; by apply Ho).
    destruct (PyDict.get e isin_column) as [ve|]; [|done].
    by rewrite Hv.
  - symmetry. apply list_eq_Forall2.
    apply Forall2_fmap. eapply Forall2_impl; [exact HW |].
    intros r r' [Hg _]. unfold key_of. by rewrite Hg.
Qed.

Lemma merge_data_column (isin_column : string)
    (existing_data : option (list record)) (new_data out : list record) :
  isin_column ∉ static_fields ->
  merge_data existing_data new_data isin_column = Return out ->
  key_of isin_column <$> out = key_of isin_column <$> new_data.
Proof.
  intros Hcol Hrun.
  destruct existing_data as [[|e es]|]; try (by injection Hrun as <-).
  rewrite merge_data_unfold in Hrun by done.
  destruct (index_by isin_column (e :: es) ∅) as [m|err]; [|done].
  simpl in Hrun.
  apply (for_each_fmap (merge_record isin_column m)); [|done].
  intros x y _ Hxy. unfold key_of.
  by rewrite (merge_record_other isin_column m x y isin_column Hxy Hcol).
Qed.

Lemma merge_data_well_formed (isin_column : string)
    (existing_data : option (list record)) (new_data out : list record) :
  Forall well_formed new_data ->
  merge_data existing_data new_data isin_column = Return out ->
  Forall well_formed out.
Proof.
  intros Hwf Hrun.
  destruct existing_data as [[|e es]|]; try (by injection Hrun as <-).
  rewrite merge_data_unfold in Hrun by done.
  destruct (index_by isin_column (e :: es) ∅) as [m|err]; [|done].
  simpl in Hrun. apply Forall_forall. intros y Hy.
  destruct (for_each_elem _ _ _ _ Hrun Hy) as (x & Hx & Hxy).
  rewrite Forall_forall in Hwf. specialize (Hwf x Hx).
  unfold merge_record, PyDict.getitem in Hxy.
  destruct (PyDict.get x isin_column) as [k|]; [|done]. simpl in Hxy.
  destruct (m !! py_key k) as [old|]; injection Hxy as <-; [|done].
  by apply keep_static_well_formed.
Qed.

(** X16.  A run on data that are already enriched costs nothing: when the
    previous catalog holds, for the identifier of every incoming record, a
    record with [bondid] and [issueprice] present and not null, [main] hands
    to [json.dump] the incoming list merged with the previous catalog, and
    requests neither the directory page nor any detail document. *)
Theorem main_rerun_without_requests (py_float : string -> option num)
    (remote : site) (fuel : nat) (existing : list record) (sample : record)
    (rest : list record) (isin_column : string) (w : world) :
  find_isin_column sample = Some isin_column ->
  catalog isin_column existing ->
  keyed isin_column (sample :: rest) ->
  (forall nr, nr ∈ sample :: rest ->
     exists prev, prev ∈ existing /\
       key_of isin_column prev = key_of isin_column nr /\
       valid_field prev "bondid" /\ valid_field prev "issueprice") ->
  exists merged,
    merge_data (Some existing) (sample :: rest) isin_column = Return merged /\
    main_from_step1 py_float remote fuel (Some existing) (Some (sample :: rest)) w
    = Some (Dumped merged, w).
Proof.
  intros Hcol Hcat Hkeyed Hprev.
  destruct (index_by_catalog isin_column existing ∅ Hcat) as (m & Hm & Hin & _).
  assert (Hne : existing ≠ []).
  { destruct (Hprev sample) as (prev & Hp & _); [by constructor |].
    intros ->. by apply elem_of_nil in Hp. }
  destruct (merge_records_return isin_column m (sample :: rest) Hkeyed)
    as [merged Hmerged].
  assert (Hmerge : merge_data (Some existing) (sample :: rest) isin_column
                   = Return merged)
    by (by rewrite merge_data_unfold, Hm).
  exists merged. split; [done |].
  assert (Hvalid : Forall (fun r => needs_enrichment r = false) merged).
  { apply Forall_forall. intros y Hy.
    destruct (for_each_elem _ _ _ _ Hmerged Hy) as (x & Hx & Hxy).
    destruct (Hprev x Hx) as (prev & Hp & Hk & (b & Hb & Hbn) & (p & Hpr & Hpn)).
    unfold merge_record, PyDict.getitem in Hxy.
    unfold keyed in Hkeyed. rewrite Forall_forall in Hkeyed.
    destruct (Hkeyed x Hx) as [v Hv]. rewrite Hv in Hxy. simpl in Hxy.
    rewrite (Hin prev (py_key v) Hp) in Hxy
      by (rewrite Hk; unfold key_of; by rewrite Hv).
    injection Hxy as <-. apply needs_enrichment_valid. split.
    - exists b. split; [|done].
      apply keep_static_static; [by constructor | done | done].
    - exists p. split; [|done].
      apply keep_static_static;
        [apply elem_of_cons; right; by constructor | done | done]. }
  destruct (isin_to_process_none isin_column merged Hvalid) as [Hset Hlist].
  unfold main_from_step1. rewrite Hcol.
  assert (has_records (Some existing) = true) as -> by (by destruct existing).
  rewrite Hmerge.
  unfold plan_and_enrich, and_then, lift, ret.
  rewrite Hset, Hlist. by rewrite decide_True.
Qed.

Lemma main_rerun_without_requests_witness :
  exists merged,
    merge_data
      (Some [[("ISIN", VStr "A"); ("price", VNum (num_of_Z 100));
              ("bondid", VStr "7"); ("issueprice", VNum (num_frac 995 10))]])
      [[("ISIN", VStr "A"); ("price", VNum (num_of_Z 101))]] "ISIN"
    = Return merged /\
    main_from_step1 Sample.decimal_float
      (site_of [too_many_requests] {["A" := "7"]}) 0
      (Some [[("ISIN", VStr "A"); ("price", VNum (num_of_Z 100));
              ("bondid", VStr "7"); ("issueprice", VNum (num_frac 995 10))]])
      (Some [[("ISIN", VStr "A"); ("price", VNum (num_of_Z 101))]]) start_of_run
    = Some (Dumped merged, start_of_run).
Proof.
  apply main_rerun_without_requests.
  - reflexivity.
  - split; [repeat constructor; by eexists | apply NoDup_singleton].
  - repeat constructor. by eexists.
  - intros nr Hnr. apply list_elem_of_singleton in Hnr as ->.
    eexists. split; [by constructor |]. split; [reflexivity |].
    split; eexists; (split; [reflexivity | discriminate]).
Defined.

(** X17.  What [main] hands to [json.dump] has the entities of the list
    that step 1 gave, one for one and in the same order: when the records
    of that list are well formed, the result has at every position a record
    with the same identifier, under the column that [main] found in the
    first record. *)
Theorem main_keeps_entities (py_float : string -> option num) (remote : site)
    (fuel : nat) (existing_data : option (list record))
    (json_data enriched_json : list record) (w w' : world) :
  Forall well_formed json_data ->
  main_from_step1 py_float remote fuel existing_data (Some json_data) w
    = Some (Dumped enriched_json, w') ->
  exists sample rest isin_column,
    json_data = sample :: rest /\
    find_isin_column sample = Some isin_column /\
    length enriched_json = length json_data /\
    key_of isin_column <$> enriched_json = key_of isin_column <$> json_data.
Proof.
  intros Hwf. unfold main_from_step1.
  destruct json_data as [|sample rest]; [done |].
  destruct (find_isin_column sample) as [col|] eqn:Hcol; [|done].
  pose proof (find_isin_column_not_static _ _ Hcol) as Hns.
  intros Hrun. exists sample, rest, col. split; [done |]. split; [done |].
  assert (Hkeys : key_of col <$> enriched_json = key_of col <$> sample :: rest).
  { destruct (if has_records existing_data
              then merge_data existing_data (sample :: rest) col
              else Return (sample :: rest)) as [data|e] eqn:Hmerged; [|done].
    assert (Hd : key_of col <$> data = key_of col <$> sample :: rest /\
                 Forall well_formed data).
    { destruct (has_records existing_data).
      - split; [by eapply merge_data_column | by eapply merge_data_well_formed].
      - by injection Hmerged as <-. }
    destruct Hd as [Hd Hwfd].
    destruct (plan_and_enrich py_float remote fuel col data w)
      as [[[out|e] w1]|] eqn:Hplan; [|done..].
    injection Hrun as <- _. rewrite <- Hd.
    by eapply plan_and_enrich_keys. }
  split; [|done].
  apply (f_equal length) in Hkeys. by rewrite !length_fmap in Hkeys.
Qed.

Lemma main_keeps_entities_witness :
  exists sample rest isin_column,
    [[("ISIN", VStr "B"); ("price", VNum (num_of_Z 50))];
     [("ISIN", VStr "A"); ("price", VNum (num_of_Z 101))]] = sample :: rest /\
    find_isin_column sample = Some isin_column /\
    length [[("ISIN", VStr "B"); ("price", VNum (num_of_Z 50));
             ("bondid", VNone); ("issueprice", VNone)];
            [("ISIN", VStr "A"); ("price", VNum (num_of_Z 101));
             ("bondid", VStr "7"); ("issueprice", VNum (num_frac 9875 100))]]
    = length [[("ISIN", VStr "B"); ("price", VNum (num_of_Z 50))];
              [("ISIN", VStr "A"); ("price", VNum (num_of_Z 101))]] /\
    key_of isin_column
      <$> [[("ISIN", VStr "B"); ("price", VNum (num_of_Z 50));
            ("bondid", VNone); ("issueprice", VNone)];
           [("ISIN", VStr "A"); ("price", VNum (num_of_Z 101));
            ("bondid", VStr "7"); ("issueprice", VNum (num_frac 9875 100))]]
    = key_of isin_column
      <$> [[("ISIN", VStr "B"); ("price", VNum (num_of_Z 50))];
           [("ISIN", VStr "A"); ("price", VNum (num_of_Z 101))]].
Proof.
  apply (main_keeps_entities Sample.decimal_float
           (site_of [RespOk (Some "98,75")] {["A" := "7"]}) 1
           (Some [[("ISIN", VStr "A"); ("price", VNum (num_of_Z 100));
                   ("bondid", VStr "7"); ("issueprice", VNone)]])
           _ _ start_of_run
           {| requests := ["7"]; pauses := []; directory_requests := 1 |}).
  - repeat constructor.
    + intros H. apply list_elem_of_singleton in H. discriminate H.
    + intros H. by apply elem_of_nil in H.
    + intros H. apply list_elem_of_singleton in H. discriminate H.
    + intros H. by apply elem_of_nil in H.
  - reflexivity.
Defined.

(** ** The contract of the enrichment *)


Section ContractFacts.

Variable py_float : string -> option num.
Variable remote : site.
Variable fuel : nat.
Variable isin_column : string.
Variable isin_bond_map : gmap string string.



End ContractFacts.


